(** * Provider scraper: value normaliser, snapshot builder, change detector
      and update driver of [scrape_providers.py], embedded and verified. *)

From Stdlib Require Import ZArith NArith List String Ascii Bool Lia Permutation.
From Stdlib Require Import Floats.SpecFloat.
Import ListNotations.

Local Open Scope string_scope.
Local Open Scope Z_scope.

(** ** Python strings

    A [str] is modelled as a [string] whose characters are the code points
    U+0000..U+00FF.  The predicates below are Python's own on that range. *)

Module PyStr.

Definition code (c : ascii) : N := N_of_ascii c.

Definition between (lo hi : N) (c : ascii) : bool :=
  (lo <=? code c)%N && (code c <=? hi)%N.

(** [str.isspace] on one character: the set [str.strip()] removes. *)
Definition isspace (c : ascii) : bool :=
  between 9 13 c || between 28 32 c || (code c =? 133)%N || (code c =? 160)%N.

Fixpoint lstrip (s : string) : string :=
  match s with
  | String c s' => if isspace c then lstrip s' else s
  | EmptyString => EmptyString
  end.

Fixpoint rstrip (s : string) : string :=
  match s with
  | EmptyString => EmptyString
  | String c s' =>
      match rstrip s' with
      | EmptyString => if isspace c then EmptyString else String c EmptyString
      | r => String c r
      end
  end.

(** [s.strip()] *)
Definition strip (s : string) : string := rstrip (lstrip s).

(** [s.startswith(pat)] *)
Fixpoint startswith (s pat : string) {struct pat} : bool :=
  match pat with
  | EmptyString => true
  | String a pat' =>
      match s with
      | EmptyString => false
      | String b s' => Ascii.eqb a b && startswith s' pat'
      end
  end.

(** [s.replace(old, new)] for a non-empty [old]: occurrences are found left
    to right and do not overlap.  [skip] counts the characters of a matched
    occurrence that are still to be dropped. *)
Fixpoint replace_from (old new : string) (skip : nat) (s : string) : string :=
  match s with
  | EmptyString => EmptyString
  | String c s' =>
      match skip with
      | S k => replace_from old new k s'
      | O =>
          if startswith s old
          then new ++ replace_from old new (String.length old - 1) s'
          else String c (replace_from old new 0 s')
      end
  end.

(** With the empty pattern Python puts [new] around every character. *)
Fixpoint around (new s : string) : string :=
  match s with
  | EmptyString => new
  | String c s' => new ++ String c (around new s')
  end.

Definition replace (old new s : string) : string :=
  match old with
  | EmptyString => around new s
  | _ => replace_from old new 0 s
  end.

Definition lower_char (c : ascii) : ascii :=
  if between 65 90 c || (between 192 222 c && negb (code c =? 215)%N)
  then ascii_of_N (code c + 32)
  else c.

(** [s.lower()] *)
Fixpoint lower (s : string) : string :=
  match s with
  | EmptyString => EmptyString
  | String c s' => String (lower_char c) (lower s')
  end.

(** [c in s] for a one-character [c]. *)
Fixpoint occurs (c : ascii) (s : string) : bool :=
  match s with
  | EmptyString => false
  | String d s' => Ascii.eqb c d || occurs c s'
  end.

End PyStr.

(** ** Python numbers: [int(str)] and [float(str)] *)

Module PyNum.

Definition binary64 := spec_float.
Definition prec : Z := 53.
Definition emax : Z := 1024.

Definition digit_of (c : ascii) : option N :=
  if PyStr.between 48 57 c then Some (PyStr.code c - 48)%N else None.

(** White space skipped by [int] and [float] at both ends of their argument:
    the separators U+001C..U+001F are not part of it, although [strip]
    removes them. *)
Definition isblank (c : ascii) : bool :=
  PyStr.between 9 13 c || (PyStr.code c =? 32)%N
  || (PyStr.code c =? 133)%N || (PyStr.code c =? 160)%N.

Fixpoint skip_blank (s : string) : string :=
  match s with
  | String c s' => if isblank c then skip_blank s' else s
  | EmptyString => EmptyString
  end.

Fixpoint drop_blank_end (s : string) : string :=
  match s with
  | EmptyString => EmptyString
  | String c s' =>
      match drop_blank_end s' with
      | EmptyString => if isblank c then EmptyString else String c EmptyString
      | r => String c r
      end
  end.

Definition trim (s : string) : string := drop_blank_end (skip_blank s).

(** A run of digits already begun: [digit] or ["_" digit] repeated.  The
    accumulator holds the value read so far and the number of digits. *)
Fixpoint digits_more (s : string) (acc : N) (n : nat) : N * nat * string :=
  match s with
  | EmptyString => (acc, n, s)
  | String c s' =>
      match digit_of c with
      | Some d => digits_more s' (10 * acc + d)%N (S n)
      | None =>
          if Ascii.eqb c "_" then
            match s' with
            | String c2 s'' =>
                match digit_of c2 with
                | Some d => digits_more s'' (10 * acc + d)%N (S n)
                | None => (acc, n, s)
                end
            | EmptyString => (acc, n, s)
            end
          else (acc, n, s)
      end
  end.

(** [digitpart ::= digit (["_"] digit)*], continuing from [acc]; [None] when
    the text does not start with a digit. *)
Definition digitpart (s : string) (acc : N) : option (N * nat * string) :=
  match s with
  | String c s' =>
      match digit_of c with
      | Some d => Some (digits_more s' (10 * acc + d)%N 1%nat)
      | None => None
      end
  | EmptyString => None
  end.

(** An optional sign; [true] for ["-"]. *)
Definition sign (s : string) : bool * string :=
  match s with
  | String c s' =>
      if Ascii.eqb c "-" then (true, s')
      else if Ascii.eqb c "+" then (false, s')
      else (false, s)
  | EmptyString => (false, s)
  end.

(** [int(s)]; [None] stands for [ValueError].  Integers are unbounded: the
    interpreter's limit on the number of digits of a literal is left out. *)
Definition py_int (s : string) : option Z :=
  let (neg, body) := sign (trim s) in
  match digitpart body 0 with
  | Some (n, _, EmptyString) => Some (if neg then - Z.of_N n else Z.of_N n)
  | _ => None
  end.

(** The double nearest to [m * 10 ^ e10], ties to even. *)
Definition float_of_decimal (neg : bool) (m : N) (e10 : Z) : binary64 :=
  match m with
  | N0 => S754_zero neg
  | Npos p =>
      if 0 <=? e10
      then binary_round prec emax neg (p * Z.to_pos (10 ^ e10))%positive 0
      else
        let '(q, e2, loc) :=
          SFdiv_core_binary prec emax (Zpos p) 0 (10 ^ (- e10)) 0 in
        binary_round_aux prec emax neg q e2 loc
  end.

(** Lower case of the ASCII letters only, for the spellings of the special
    values. *)
Definition ascii_lower_char (c : ascii) : ascii :=
  if PyStr.between 65 90 c then ascii_of_N (PyStr.code c + 32) else c.

Fixpoint ascii_lower (s : string) : string :=
  match s with
  | EmptyString => EmptyString
  | String c s' => String (ascii_lower_char c) (ascii_lower s')
  end.

(** [("e" | "E") [sign] digitpart], or nothing. *)
Definition exponent (s : string) : option (Z * string) :=
  match s with
  | String c s' =>
      if Ascii.eqb c "e" || Ascii.eqb c "E" then
        let (neg, body) := sign s' in
        match digitpart body 0 with
        | Some (n, _, rest) =>
            Some (if neg then - Z.of_N n else Z.of_N n, rest)
        | None => None
        end
      else Some (0, s)
  | EmptyString => Some (0, s)
  end.

(** [number ::= [digitpart] "." digitpart | digitpart ["."]]: the digits read
    as one integer, the number of digits after the point, the rest. *)
Definition number (s : string) : option (N * nat * string) :=
  match digitpart s 0 with
  | Some (ip, _, String c r) =>
      if Ascii.eqb c "." then
        match digitpart r ip with
        | Some (m, k, rest) => Some (m, k, rest)
        | None => Some (ip, O, r)
        end
      else Some (ip, O, String c r)
  | Some (ip, _, EmptyString) => Some (ip, O, EmptyString)
  | None =>
      match s with
      | String c r =>
          if Ascii.eqb c "." then digitpart r 0 else None
      | EmptyString => None
      end
  end.

(** [float(s)]; [None] stands for [ValueError]. *)
Definition py_float (s : string) : option binary64 :=
  let (neg, body) := sign (trim s) in
  let low := ascii_lower body in
  if String.eqb low "inf" || String.eqb low "infinity"
  then Some (S754_infinity neg)
  else if String.eqb low "nan" then Some S754_nan
  else
    match number body with
    | Some (m, k, rest) =>
        match exponent rest with
        | Some (e, EmptyString) => Some (float_of_decimal neg m (e - Z.of_nat k))
        | _ => None
        end
    | None => None
    end.

End PyNum.

(** ** Python objects and exceptions

    The objects that [json.load] yields and the scraper builds.  A [dict] is
    an association list in insertion order, its keys are strings and occur
    once. *)

#[warning="-register-all"]
Inductive pyobj : Type :=
| VNone
| VBool (b : bool)
| VInt (z : Z)
| VFloat (f : PyNum.binary64)
| VStr (s : string)
| VList (items : list pyobj)
| VDict (fields : list (string * pyobj)).

Inductive exn : Type :=
| KeyError | TypeError | ValueError | IndexError | AttributeError
| OSError | PlaywrightError.

Inductive result (A : Type) : Type :=
| Ok (a : A)
| Raise (e : exn).
Arguments Ok {A} a.
Arguments Raise {A} e.

Definition bind {A B : Type} (m : result A) (k : A -> result B) : result B :=
  match m with
  | Ok a => k a
  | Raise e => Raise e
  end.

Notation "x <- m ;; k" := (bind m (fun x => k))
  (at level 61, m at next level, right associativity).

Module Py.

(** The integer an exactly integral float stands for. *)
Definition exact_Z (f : PyNum.binary64) : option Z :=
  match f with
  | S754_zero _ => Some 0
  | S754_finite s m e =>
      if 0 <=? e then Some (cond_Zopp s (Zpos m * 2 ^ e))
      else if (Zpos m mod 2 ^ (- e)) =? 0
           then Some (cond_Zopp s (Zpos m / 2 ^ (- e)))
           else None
  | _ => None
  end.

Inductive number : Type := NInt (z : Z) | NFloat (f : PyNum.binary64).

(** [bool] is a subclass of [int]: [True == 1]. *)
Definition as_number (v : pyobj) : option number :=
  match v with
  | VBool b => Some (NInt (if b then 1 else 0))
  | VInt z => Some (NInt z)
  | VFloat f => Some (NFloat f)
  | _ => None
  end.

(** Numbers compare by exact value; a NaN equals nothing. *)
Definition num_eq (a b : number) : bool :=
  match a, b with
  | NInt x, NInt y => x =? y
  | NFloat f, NFloat g => SFeqb f g
  | NInt x, NFloat f | NFloat f, NInt x =>
      match exact_Z f with
      | Some y => x =? y
      | None => false
      end
  end.

Fixpoint lookup (k : string) (fields : list (string * pyobj)) : option pyobj :=
  match fields with
  | [] => None
  | (k', v) :: rest => if String.eqb k k' then Some v else lookup k rest
  end.

(** [a == b] between two objects built apart from each other. *)
Fixpoint py_eq (a b : pyobj) {struct a} : bool :=
  match a, b with
  | VNone, VNone => true
  | VStr s, VStr t => String.eqb s t
  | VList l, VList m =>
      (fix all2 (l m : list pyobj) {struct l} : bool :=
         match l, m with
         | [], [] => true
         | x :: l', y :: m' => py_eq x y && all2 l' m'
         | _, _ => false
         end) l m
  | VDict kv, VDict kw =>
      Nat.eqb (List.length kv) (List.length kw)
      && (fix all (kv : list (string * pyobj)) {struct kv} : bool :=
            match kv with
            | [] => true
            | (k, v) :: kv' =>
                match lookup k kw with
                | Some w => py_eq v w
                | None => false
                end && all kv'
            end) kv
  | _, _ =>
      match as_number a, as_number b with
      | Some x, Some y => num_eq x y
      | _, _ => false
      end
  end.

(** [a != b] *)
Definition py_ne (a b : pyobj) : bool := negb (py_eq a b).

Fixpoint chars (s : string) : list pyobj :=
  match s with
  | EmptyString => []
  | String c s' => VStr (String c EmptyString) :: chars s'
  end.

(** [len(v)] *)
Definition len (v : pyobj) : result nat :=
  match v with
  | VList l => Ok (List.length l)
  | VDict kv => Ok (List.length kv)
  | VStr s => Ok (String.length s)
  | _ => Raise TypeError
  end.

(** The items that [for x in v] goes through. *)
Definition iter (v : pyobj) : result (list pyobj) :=
  match v with
  | VList l => Ok l
  | VDict kv => Ok (map (fun kv => VStr (fst kv)) kv)
  | VStr s => Ok (chars s)
  | _ => Raise TypeError
  end.

(** Position designated by a sequence index, counted from the end when
    negative. *)
Definition position (key : pyobj) (n : nat) : result nat :=
  match as_number key with
  | Some (NInt i) =>
      let j := if i <? 0 then i + Z.of_nat n else i in
      if (0 <=? j) && (j <? Z.of_nat n) then Ok (Z.to_nat j)
      else Raise IndexError
  | _ => Raise TypeError
  end.

(** [v[key]] *)
Definition getitem (v key : pyobj) : result pyobj :=
  match v with
  | VDict kv =>
      match key with
      | VStr k =>
          match lookup k kv with
          | Some x => Ok x
          | None => Raise KeyError
          end
      | VList _ | VDict _ => Raise TypeError
      | _ => Raise KeyError
      end
  | VList l =>
      i <- position key (List.length l) ;;
      match nth_error l i with
      | Some x => Ok x
      | None => Raise IndexError
      end
  | VStr s =>
      i <- position key (String.length s) ;;
      match nth_error (chars s) i with
      | Some x => Ok x
      | None => Raise IndexError
      end
  | _ => Raise TypeError
  end.

(** [v.get(key, default)] *)
Definition get (v key default : pyobj) : result pyobj :=
  match v with
  | VDict kv =>
      match key with
      | VStr k =>
          match lookup k kv with
          | Some x => Ok x
          | None => Ok default
          end
      | VList _ | VDict _ => Raise TypeError
      | _ => Ok default
      end
  | _ => Raise AttributeError
  end.

(** [d[k] = v] on the fields of a dict: an existing key keeps its place, a
    new one goes last. *)
Fixpoint setfield (k : string) (v : pyobj) (fields : list (string * pyobj))
  : list (string * pyobj) :=
  match fields with
  | [] => [(k, v)]
  | (k', v') :: rest =>
      if String.eqb k k' then (k', v) :: rest
      else (k', v') :: setfield k v rest
  end.

End Py.

(** ** Value normaliser *)

Definition clean_and_convert_values (value : option string) (data_type : string)
  : pyobj :=
  match value with
  | None => VNone
  | Some value =>
      let value := PyStr.strip value in
      if String.eqb data_type "str" then VStr value
      else if String.eqb data_type "int" || String.eqb data_type "float" then
        let value := PyStr.replace "," EmptyString value in
        if String.eqb data_type "float" then
          match PyNum.py_float
                  (PyStr.replace "K" "000" (PyStr.replace "$" EmptyString value)) with
          | Some f => VFloat f
          | None => VNone
          end
        else
          match PyNum.py_int (PyStr.replace "K" "000" value) with
          | Some z => VInt z
          | None => VNone
          end
      else if String.eqb data_type "latency" then
        let value := PyStr.replace "s" EmptyString value in
        match PyNum.py_float value with
        | Some f => VFloat f
        | None => VNone
        end
      else if String.eqb data_type "throughput" then
        let value := PyStr.replace "t/s" EmptyString value in
        match PyNum.py_float value with
        | Some f => VFloat f
        | None => VNone
        end
      else VStr value
  end.

(** ** Provider records and snapshots

    The dict literal that [scrape_providers] builds for one provider: a name
    and the six metrics, in the order the source writes them. *)

Record metric_set : Type := {
  context_length : pyobj;
  max_output_tokens : pyobj;
  input_price_per_million : pyobj;
  output_price_per_million : pyobj;
  latency_seconds : pyobj;
  throughput_tokens_per_second : pyobj
}.

Record provider : Type := {
  name : pyobj;
  metrics : metric_set
}.

Definition snapshot : Type := list provider.

Definition metrics_dict (m : metric_set) : pyobj :=
  VDict [ ("context_length", context_length m);
          ("max_output_tokens", max_output_tokens m);
          ("input_price_per_million", input_price_per_million m);
          ("output_price_per_million", output_price_per_million m);
          ("latency_seconds", latency_seconds m);
          ("throughput_tokens_per_second", throughput_tokens_per_second m) ].

Definition provider_data (p : provider) : pyobj :=
  VDict [ ("name", name p); ("metrics", metrics_dict (metrics p)) ].

(** The list object a snapshot is in Python. *)
Definition snapshot_obj (s : snapshot) : pyobj := VList (map provider_data s).

(** The record returned when a model shows no provider table. *)
Definition no_provider : provider :=
  {| name := VNone;
     metrics := {| context_length := VNone;
                   max_output_tokens := VNone;
                   input_price_per_million := VNone;
                   output_price_per_million := VNone;
                   latency_seconds := VNone;
                   throughput_tokens_per_second := VNone |} |}.

(** ** Snapshot builder

    The browser is the environment.  A page is described by what each
    Playwright call of [scrape_providers] meets on it. *)

Record row : Type := {
  (** the name link: [None] when the locator is falsy, otherwise what its
      [inner_text()] gives *)
  name_el : option (result string);
  (** the [div.text-lg] cells of the metrics container, each with what its
      [inner_text()] gives; [Raise] when locating them fails *)
  cells : result (list (result string))
}.

Inductive page : Type :=
| Unreachable (e : exn)
    (** launching the browser or loading the page raises *)
| Loaded (tab_found section_visible : bool) (rows : list row).

(** [[m.inner_text() for m in metrics]] *)
Fixpoint inner_texts (ms : list (result string)) : result (list string) :=
  match ms with
  | [] => Ok []
  | m :: rest =>
      t <- m ;;
      ts <- inner_texts rest ;;
      Ok (t :: ts)
  end.

(** The body of the loop over the rows: [Some] is the record appended,
    [None] a row passed over by [continue], directly or from the handler. *)
Definition scrape_row (r : row) : option provider :=
  match name_el r with
  | None => None
  | Some (Raise _) => None
  | Some (Ok text) =>
      let name := PyStr.lower text in
      match cells r with
      | Raise _ => None
      | Ok metrics =>
          if (List.length metrics <? 6)%nat then None
          else
            match inner_texts metrics with
            | Raise _ => None
            | Ok metrics_text =>
                let field i := nth_error metrics_text i in
                Some
                  {| name := VStr (PyStr.replace " " "_" name);
                     metrics :=
                       {| context_length :=
                            clean_and_convert_values (field 0%nat) "int";
                          max_output_tokens :=
                            clean_and_convert_values (field 1%nat) "int";
                          input_price_per_million :=
                            clean_and_convert_values (field 2%nat) "float";
                          output_price_per_million :=
                            clean_and_convert_values (field 3%nat) "float";
                          latency_seconds :=
                            clean_and_convert_values (field 4%nat) "latency";
                          throughput_tokens_per_second :=
                            clean_and_convert_values (field 5%nat) "throughput"
                       |} |}
            end
      end
  end.

Definition scrape_providers (model_page : page) : result snapshot :=
  match model_page with
  | Unreachable e => Raise e
  | Loaded tab_found section_visible rows =>
      if negb tab_found then Ok [no_provider]
      else if negb section_visible then Ok [no_provider]
      else if (List.length rows =? 0)%nat then Ok [no_provider]
      else
        Ok (fold_left
              (fun providers r =>
                 match scrape_row r with
                 | Some provider_data => (providers ++ [provider_data])%list
                 | None => providers
                 end)
              rows [])
  end.

(** ** Change detector *)

(** The loop over the keys of [new_metrics]. *)
Fixpoint metrics_changed (new_metrics existing_metrics : pyobj)
    (keys : list pyobj) : result bool :=
  match keys with
  | [] => Ok false
  | key :: rest =>
      new_value <- Py.getitem new_metrics key ;;
      old_value <- Py.get existing_metrics key VNone ;;
      if Py.py_ne new_value old_value then Ok true
      else metrics_changed new_metrics existing_metrics rest
  end.

(** The loop over [enumerate(new_providers)], from index [i] on. *)
Fixpoint providers_changed_from (existing_providers : pyobj) (i : nat)
    (new_providers : list pyobj) : result bool :=
  match new_providers with
  | [] => Ok false
  | new_provider :: rest =>
      n <- Py.len existing_providers ;;
      if (n <=? i)%nat then Ok true
      else
        existing <- Py.getitem existing_providers (VInt (Z.of_nat i)) ;;
        new_name <- Py.getitem new_provider (VStr "name") ;;
        old_name <- Py.getitem existing (VStr "name") ;;
        if Py.py_ne new_name old_name then Ok true
        else
          new_metrics <- Py.getitem new_provider (VStr "metrics") ;;
          existing_metrics <- Py.getitem existing (VStr "metrics") ;;
          keys <- Py.iter new_metrics ;;
          changed <- metrics_changed new_metrics existing_metrics keys ;;
          if changed then Ok true
          else providers_changed_from existing_providers (S i) rest
  end.

(** [providers_changed(existing_providers, new_providers, model_id)]; the
    third argument only feeds the messages printed and is left out. *)
Definition providers_changed (existing_providers new_providers : pyobj)
  : result bool :=
  n_old <- Py.len existing_providers ;;
  n_new <- Py.len new_providers ;;
  if negb (n_old =? n_new)%nat then Ok true
  else
    items <- Py.iter new_providers ;;
    providers_changed_from existing_providers 0 items.

(** ** Serialisation: [json.dump(obj, f, indent=2)] *)

Module Json.

(** [repr] of a positive integer and of an integer. *)
Definition digit_char (d : Z) : ascii := ascii_of_N (48 + Z.to_N d).

Fixpoint decimal_from (fuel : nat) (n : Z) (acc : string) : string :=
  match fuel with
  | O => acc
  | S fuel' =>
      let acc' := String (digit_char (n mod 10)) acc in
      if n <? 10 then acc' else decimal_from fuel' (n / 10) acc'
  end.

Definition decimal (n : Z) : string :=
  decimal_from (S (Z.to_nat (Z.log2 n))) n EmptyString.

Definition repr_int (z : Z) : string :=
  if z <? 0 then String "-" (decimal (- z)) else decimal z.

(** *** [repr] of a float: the shortest decimal that reads back as the same
    double, the nearest to it among the shortest. *)

(** [floor (num / den / 10 ^ s)] and whether twice the remainder is below
    the divisor. *)
Definition scaled (num den s : Z) : Z * bool :=
  let n := if 0 <=? s then num else num * 10 ^ (- s) in
  let d := if 0 <=? s then den * 10 ^ s else den in
  (n / d, 2 * (n mod d) <? d).

(** The decimal exponent [E] with [10 ^ E <= num / den < 10 ^ (E + 1)],
    reached from an estimate. *)
Fixpoint settle (fuel : nat) (num den E : Z) : Z :=
  match fuel with
  | O => E
  | S fuel' =>
      let t := fst (scaled num den E) in
      if t <? 1 then settle fuel' num den (E - 1)
      else if 10 <=? t then settle fuel' num den (E + 1)
      else E
  end.

Definition decimal_exponent (num den : Z) : Z :=
  settle 8 num den ((Z.log2 num - Z.log2 den) * 30103 / 100000).

Definition same_double (f g : PyNum.binary64) : bool :=
  match f, g with
  | S754_finite _ m e, S754_finite _ m' e' => Pos.eqb m m' && (e =? e')
  | _, _ => false
  end.

(** The digits of precision [p], when one of the two decimals around the
    value reads back as [x]: the significand and its scale. *)
Definition digits_at (x : PyNum.binary64) (num den E : Z) (p : Z)
  : option (Z * Z) :=
  let s := E - p + 1 in
  let '(lo, lo_nearer) := scaled num den s in
  let back d := same_double (PyNum.float_of_decimal false (Z.to_N d) s) x in
  match back lo, back (lo + 1) with
  | true, true => Some (if lo_nearer then lo else lo + 1, s)
  | true, false => Some (lo, s)
  | false, true => Some (lo + 1, s)
  | false, false => None
  end.

Fixpoint shortest (fuel : nat) (x : PyNum.binary64) (num den E p : Z)
  : Z * Z :=
  match fuel with
  | O => (0, 0)
  | S fuel' =>
      match digits_at x num den E p with
      | Some r => r
      | None => shortest fuel' x num den E (p + 1)
      end
  end.

Fixpoint drop_zeros (fuel : nat) (d s : Z) : Z * Z :=
  match fuel with
  | O => (d, s)
  | S fuel' =>
      if (d mod 10 =? 0) && (0 <? d) then drop_zeros fuel' (d / 10) (s + 1)
      else (d, s)
  end.

Fixpoint zeros (n : nat) : string :=
  match n with
  | O => EmptyString
  | S n' => String "0" (zeros n')
  end.

(** The layout of [repr]: [digits] with the decimal point after [decpt] of
    them. *)
Definition layout (digits : string) (decpt : Z) : string :=
  let n := Z.of_nat (String.length digits) in
  if (decpt <=? -4) || (16 <? decpt) then
    let e := decpt - 1 in
    let mant :=
      match digits with
      | String c EmptyString => digits
      | String c rest => String c (String "." rest)
      | EmptyString => EmptyString
      end in
    let ex := decimal (Z.abs e) in
    mant ++ "e" ++ (if e <? 0 then "-" else "+")
         ++ (if Z.abs e <? 10 then "0" else EmptyString) ++ ex
  else if decpt <=? 0 then
    "0." ++ zeros (Z.to_nat (- decpt)) ++ digits
  else if n <=? decpt then
    digits ++ zeros (Z.to_nat (decpt - n)) ++ ".0"
  else
    substring 0 (Z.to_nat decpt) digits ++ "."
      ++ substring (Z.to_nat decpt) (Z.to_nat (n - decpt)) digits.

Definition repr_float (x : PyNum.binary64) : string :=
  match x with
  | S754_nan => "nan"
  | S754_infinity s => if s then "-inf" else "inf"
  | S754_zero s => if s then "-0.0" else "0.0"
  | S754_finite s m e =>
      let num := if 0 <=? e then Zpos m * 2 ^ e else Zpos m in
      let den := if 0 <=? e then 1 else 2 ^ (- e) in
      let E := decimal_exponent num den in
      let '(d0, s0) := shortest 17 x num den E 1 in
      let '(d, sc) := drop_zeros 20 d0 s0 in
      let digits := decimal d in
      (if s then "-" else EmptyString)
        ++ layout digits (Z.of_nat (String.length digits) + sc)
  end.

(** *** The encoder *)

Definition hex_digit (n : N) : ascii :=
  if (n <? 10)%N then ascii_of_N (48 + n) else ascii_of_N (87 + n).

Definition quote : string := String (ascii_of_N 34) EmptyString.

(** One character of a string, escaped as with [ensure_ascii=True]. *)
Definition escape (c : ascii) : string :=
  let n := PyStr.code c in
  if (n =? 34)%N then String "\" quote
  else if (n =? 92)%N then "\\"
  else if (n =? 10)%N then "\n"
  else if (n =? 13)%N then "\r"
  else if (n =? 9)%N then "\t"
  else if (n =? 8)%N then "\b"
  else if (n =? 12)%N then "\f"
  else if PyStr.between 32 126 c then String c EmptyString
  else "\u00" ++ String (hex_digit (n / 16)) (String (hex_digit (n mod 16)) EmptyString).

Fixpoint escape_all (s : string) : string :=
  match s with
  | EmptyString => EmptyString
  | String c s' => escape c ++ escape_all s'
  end.

Definition encode_str (s : string) : string := quote ++ escape_all s ++ quote.

Definition encode_float (f : PyNum.binary64) : string :=
  match f with
  | S754_nan => "NaN"
  | S754_infinity s => if s then "-Infinity" else "Infinity"
  | _ => repr_float f
  end.

Definition newline : string := String (ascii_of_N 10) EmptyString.

Fixpoint spaces (n : nat) : string :=
  match n with
  | O => EmptyString
  | S n' => String " " (spaces n')
  end.

(** The line break and indentation written before an item at [level]. *)
Definition break (level : nat) : string := newline ++ spaces (2 * level).

Fixpoint encode (level : nat) (v : pyobj) {struct v} : string :=
  match v with
  | VNone => "null"
  | VBool b => if b then "true" else "false"
  | VInt z => repr_int z
  | VFloat f => encode_float f
  | VStr s => encode_str s
  | VList [] => "[]"
  | VList (x :: rest) =>
      "[" ++ break (S level) ++ encode (S level) x
        ++ (fix more (l : list pyobj) : string :=
              match l with
              | [] => EmptyString
              | y :: l' => "," ++ break (S level) ++ encode (S level) y ++ more l'
              end) rest
        ++ break level ++ "]"
  | VDict [] => "{}"
  | VDict ((k, x) :: rest) =>
      "{" ++ break (S level) ++ encode_str k ++ ": " ++ encode (S level) x
        ++ (fix more (l : list (string * pyobj)) : string :=
              match l with
              | [] => EmptyString
              | (k', y) :: l' =>
                  "," ++ break (S level) ++ encode_str k' ++ ": "
                    ++ encode (S level) y ++ more l'
              end) rest
        ++ break level ++ "}"
  end.

(** The text [json.dump(obj, f, indent=2)] writes to [f]. *)
Definition dumps (obj : pyobj) : string := encode 0 obj.

End Json.

(** ** Catalog store and update driver *)

(** What the run shows of itself: the lines printed by the driver and the
    calls it makes to the outside. *)
Inductive event : Type :=
| Processing (model_id : pyobj)       (** "Processing model: ..." *)
| Scrape (model_id : pyobj)           (** the call [scrape_providers(url)] *)
| Saved (model_id : pyobj)            (** "Updated and saved provider data for ..." *)
| SaveError (model_id : pyobj) (e : exn)   (** "Error saving changes for ..." *)
| NoChanges (model_id : pyobj)        (** "No changes in provider data for ..." *)
| ProcessingError (model_id : pyobj) (e : exn)  (** "Error processing ..." *)
| Slept                               (** [time.sleep(2)] *)
| UpdateError (e : exn).              (** "Error updating models: ..." *)

(** The file [models.json] during a run: as it was found, or holding a text
    written by the run. *)
Inductive file_state : Type :=
| Original
| Holds (text : string).

(** The fate of one [open("models.json", "w")] followed by [json.dump]:
    both succeed, the open raises, or the dump raises when [n] characters
    have reached the file. *)
Inductive write_outcome : Type :=
| Written
| OpenFails
| WriteFails (n : nat).

(** The environment of a run. *)
Record world : Type := {
  (** [OPENROUTER_API_KEY], after [load_dotenv()] *)
  api_key : option string;
  (** what [open("models.json", "r")] and [json.load] give *)
  models_json : result pyobj;
  (** the page met when the entry at a position is scraped *)
  web : nat -> page;
  (** the fate of the write made for the entry at a position *)
  disk_fault : nat -> write_outcome
}.

Record state : Type := {
  models_data : pyobj;
  file : file_state;
  output : list event
}.

Definition emit (ev : event) (st : state) : state :=
  {| models_data := models_data st;
     file := file st;
     output := (output st ++ [ev])%list |}.

(** [with open("models.json", "w") as f: json.dump(models_data, f, indent=2)]:
    opening for writing empties the file before anything is written. *)
Definition commit (previous : file_state) (catalog : pyobj) (o : write_outcome)
  : file_state * result unit :=
  match o with
  | OpenFails => (previous, Raise OSError)
  | WriteFails n => (Holds (substring 0 n (Json.dumps catalog)), Raise OSError)
  | Written => (Holds (Json.dumps catalog), Ok tt)
  end.

Fixpoint update {A : Type} (i : nat) (x : A) (l : list A) : list A :=
  match l, i with
  | [], _ => []
  | _ :: rest, O => x :: rest
  | y :: rest, S i' => y :: update i' x rest
  end.

(** [model["providers"] = new_providers] *)
Definition set_providers (model new_providers : pyobj) : pyobj :=
  match model with
  | VDict fields => VDict (Py.setfield "providers" new_providers fields)
  | _ => model
  end.

(** The models of a catalog: the list under its key [data]. *)
Definition entries (catalog : pyobj) : list pyobj :=
  match Py.getitem catalog (VStr "data") with
  | Ok (VList models) => models
  | _ => []
  end.

(** The catalog once the dict at position [i] of its list has changed: the
    list holds the dict itself, so the change shows in the catalog. *)
Definition with_entry (catalog : pyobj) (i : nat) (model : pyobj) : pyobj :=
  match catalog with
  | VDict top =>
      match Py.lookup "data" top with
      | Some (VList models) =>
          VDict (Py.setfield "data" (VList (update i model models)) top)
      | _ => catalog
      end
  | _ => catalog
  end.

(** The statements of the inner [try] up to the test: an exception raised
    by any of them goes to the inner handler. *)
Definition examine (w : world) (i : nat) (model : pyobj)
  : result (pyobj * bool) :=
  new_providers <- scrape_providers (web w i) ;;
  existing_providers <- Py.get model (VStr "providers") (VList []) ;;
  changed <- providers_changed existing_providers (snapshot_obj new_providers) ;;
  Ok (snapshot_obj new_providers, changed).

(** One turn of the loop over the models.  [Raise] is an exception that
    leaves the loop, for the outer handler. *)
Definition process_model (w : world) (i : nat) (model : pyobj) (st : state)
  : result state :=
  model_id <- Py.getitem model (VStr "id") ;;
  let st := emit (Scrape model_id) (emit (Processing model_id) st) in
  match examine w i model with
  | Raise e => Ok (emit (ProcessingError model_id e) st)
  | Ok (new_providers, true) =>
      let catalog :=
        with_entry (models_data st) i (set_providers model new_providers) in
      let (file', saved) := commit (file st) catalog (disk_fault w i) in
      let st := {| models_data := catalog; file := file'; output := output st |} in
      match saved with
      | Ok _ => Ok (emit Slept (emit (Saved model_id) st))
      | Raise save_error => Ok (emit Slept (emit (SaveError model_id save_error) st))
      end
  | Ok (_, false) => Ok (emit Slept (emit (NoChanges model_id) st))
  end.

(** [for model in models_data["data"]], from position [i] on. *)
Fixpoint for_each_model (w : world) (models : list pyobj) (i : nat) (st : state)
  : state * option exn :=
  match models with
  | [] => (st, None)
  | model :: rest =>
      match process_model w i model st with
      | Raise e => (st, Some e)
      | Ok st' => for_each_model w rest (S i) st'
      end
  end.

(** How a run ends. *)
Record run : Type := {
  exit_code : Z;
  catalog : option pyobj;   (** [models_data], once loaded *)
  disk : file_state;
  printed : list event
}.

Definition update_models_with_providers (w : world) : run :=
  match models_json w with
  | Raise e =>
      {| exit_code := 1; catalog := None; disk := Original;
         printed := [UpdateError e] |}
  | Ok document =>
      match (data <- Py.getitem document (VStr "data") ;; Py.iter data) with
      | Raise e =>
          {| exit_code := 1; catalog := Some document; disk := Original;
             printed := [UpdateError e] |}
      | Ok models =>
          let st0 := {| models_data := document; file := Original;
                        output := [] |} in
          match for_each_model w models 0 st0 with
          | (st, Some e) =>
              {| exit_code := 1; catalog := Some (models_data st);
                 disk := file st;
                 printed := (output st ++ [UpdateError e])%list |}
          | (st, None) =>
              {| exit_code := 0; catalog := Some (models_data st);
                 disk := file st; printed := output st |}
          end
      end
  end.


(** * Vocabulary of the properties *)

(** ** Value normaliser *)

(** What a parsed text becomes: the float, or [None] on [ValueError]. *)
Definition parsed (text : string) : pyobj :=
  match PyNum.py_float text with
  | Some f => VFloat f
  | None => VNone
  end.

(** [f] is a normal double within half a unit in the last place of
    [num / den]. *)
Definition is_double_of (f : PyNum.binary64) (num den : Z) : bool :=
  match f with
  | S754_finite false m e =>
      (Zpos (digits2_pos m) =? PyNum.prec) && (e <=? 0)
      && (2 * Z.abs (Zpos m * den - num * 2 ^ (- e)) <=? den)
  | _ => false
  end.

(** The text without any occurrence of the character [c]. *)
Fixpoint delete_char (c : ascii) (s : string) : string :=
  match s with
  | EmptyString => EmptyString
  | String d s' =>
      if Ascii.eqb c d then delete_char c s' else String d (delete_char c s')
  end.

(** [pat in s] *)
Fixpoint contains (pat s : string) : bool :=
  PyStr.startswith s pat
  || match s with
     | EmptyString => false
     | String _ s' => contains pat s'
     end.

(** The reading of the unit handling as the removal of one trailing
    suffix, everything before it left as it is. *)
Fixpoint strip_suffix (suffix s : string) : string :=
  if String.eqb s suffix then EmptyString
  else
    match s with
    | EmptyString => EmptyString
    | String c s' => String c (strip_suffix suffix s')
    end.

Definition latency_by_suffix (raw : string) : pyobj :=
  parsed (strip_suffix "s" (PyStr.strip raw)).

Definition throughput_by_suffix (raw : string) : pyobj :=
  parsed (strip_suffix "t/s" (PyStr.strip raw)).

(** The double 12.0. *)
Definition twelve : PyNum.binary64 := S754_finite false 6755399441055744 (-49).

(** ** Change detector *)

(** Two records differ when their names or one of their six metrics do, as
    Python values: numbers by value, so that [0.0] and [-0.0] are the same
    and a NaN differs from everything. *)
Definition metrics_differ (existing new : metric_set) : bool :=
  Py.py_ne (context_length new) (context_length existing)
  || Py.py_ne (max_output_tokens new) (max_output_tokens existing)
  || Py.py_ne (input_price_per_million new) (input_price_per_million existing)
  || Py.py_ne (output_price_per_million new) (output_price_per_million existing)
  || Py.py_ne (latency_seconds new) (latency_seconds existing)
  || Py.py_ne (throughput_tokens_per_second new)
              (throughput_tokens_per_second existing).

Definition provider_differs (existing new : provider) : bool :=
  Py.py_ne (name new) (name existing)
  || metrics_differ (metrics existing) (metrics new).

(** Some position holds records that differ. *)
Fixpoint differs_somewhere (existing new : snapshot) : bool :=
  match existing, new with
  | a :: existing', b :: new' =>
      provider_differs a b || differs_somewhere existing' new'
  | _, _ => false
  end.


(** *** Example data *)

(** A provider row whose latency cell reads ["NaNs"]. *)
Definition nan_row : row :=
  {| name_el := Some (Ok "OpenAI");
     cells := Ok [Ok "128K"; Ok "4,096"; Ok "$2.50"; Ok "$10";
                  Ok "NaNs"; Ok "45.1t/s"] |}.

Definition nan_page : page := Loaded true true [nan_row].

Definition nan_provider : provider :=
  {| name := VStr "openai";
     metrics := {| context_length := VInt 128000;
                   max_output_tokens := VInt 4096;
                   input_price_per_million := parsed "2.5";
                   output_price_per_million := parsed "10";
                   latency_seconds := VFloat S754_nan;
                   throughput_tokens_per_second := parsed "45.1" |} |}.

Definition openai : provider :=
  {| name := VStr "openai";
     metrics := {| context_length := VInt 128000;
                   max_output_tokens := VInt 4096;
                   input_price_per_million := parsed "2.5";
                   output_price_per_million := parsed "10";
                   latency_seconds := parsed "0.45";
                   throughput_tokens_per_second := parsed "45.1" |} |}.

Definition azure : provider :=
  {| name := VStr "azure";
     metrics := {| context_length := VInt 128000;
                   max_output_tokens := VInt 4096;
                   input_price_per_million := parsed "2.5";
                   output_price_per_million := parsed "10";
                   latency_seconds := parsed "0.45";
                   throughput_tokens_per_second := parsed "45.1" |} |}.

(** ** Snapshot builder *)

Definition raises {A : Type} (r : result A) : bool :=
  match r with
  | Raise _ => true
  | Ok _ => false
  end.

(** A row that yields no record: its name element is missing or cannot be
    read, it shows fewer than six metric cells, or reading them fails. *)
Definition row_skipped (r : row) : bool :=
  match name_el r with
  | None => true
  | Some n =>
      raises n
      || match cells r with
         | Raise _ => true
         | Ok ms => (List.length ms <? 6)%nat || existsb raises ms
         end
  end.

(** Rows that are all passed over: no name link, an unreadable name, four
    cells only, an unreadable cell. *)
Definition skipped_rows : list row :=
  [ {| name_el := None; cells := Ok [] |};
    {| name_el := Some (Raise PlaywrightError); cells := Ok [] |};
    {| name_el := Some (Ok "OpenAI");
       cells := Ok [Ok "128K"; Ok "4K"; Ok "$2.50"; Ok "$10"] |};
    {| name_el := Some (Ok "Azure");
       cells := Ok [Ok "128K"; Ok "4K"; Ok "$2.50"; Ok "$10";
                    Raise PlaywrightError; Ok "45.1t/s"] |} ].

(** ** Catalog store and update driver *)

(** The model carries an [id]. *)
Definition has_id (model : pyobj) : bool :=
  negb (raises (Py.getitem model (VStr "id"))).



(** What the turn of one model prints and calls, from what it meets. *)
Definition report (w : world) (i : nat) (model : pyobj) : list event :=
  match Py.getitem model (VStr "id") with
  | Raise _ => []
  | Ok model_id =>
      [Processing model_id; Scrape model_id]
      ++ match examine w i model with
         | Raise e => [ProcessingError model_id e]
         | Ok (_, false) => [NoChanges model_id; Slept]
         | Ok (_, true) =>
             match disk_fault w i with
             | Written => [Saved model_id; Slept]
             | _ => [SaveError model_id OSError; Slept]
             end
         end
  end%list.

(** The reports of the models from position [i] on, up to the first one
    without an [id]. *)
Fixpoint reports (w : world) (i : nat) (models : list pyobj) : list event :=
  match models with
  | [] => []
  | model :: rest =>
      if has_id model then (report w i model ++ reports w (S i) rest)%list
      else []
  end.

(** A model without its [providers]. *)
Definition without_providers (model : pyobj) : pyobj :=
  match model with
  | VDict fields =>
      VDict (filter (fun kv => negb (String.eqb (fst kv) "providers")) fields)
  | _ => model
  end.

(** A catalog without the [providers] of its models: every other field of
    the catalog and of each model, in place and in order. *)
Definition frame (catalog : pyobj) : pyobj :=
  match catalog with
  | VDict top =>
      VDict (map (fun kv =>
                    if String.eqb (fst kv) "data" then
                      (fst kv,
                       match snd kv with
                       | VList models => VList (map without_providers models)
                       | v => v
                       end)
                    else kv) top)
  | _ => catalog
  end.

(** The state of the loop when the models of [models] have had their turn,
    from the catalog as loaded. *)
Definition state_after (w : world) (document : pyobj) (models : list pyobj)
  : state :=
  fst (for_each_model w models 0
         {| models_data := document; file := Original; output := [] |}).


(** *** Example data *)

Definition gpt4o : pyobj :=
  VDict [ ("id", VStr "openai/gpt-4o"); ("name", VStr "GPT-4o");
          ("context_length", VInt 128000) ].

Definition sonnet : pyobj :=
  VDict [ ("id", VStr "anthropic/claude-3.5-sonnet");
          ("name", VStr "Claude 3.5 Sonnet") ].


Definition two_models : pyobj := VDict [ ("data", VList [gpt4o; sonnet]) ].


(** No model page shows a Providers tab; the write made for the first model
    fails when twelve characters are written. *)
Definition world_disk_full : world :=
  {| api_key := Some "sk-or-v1-0000";
     models_json := Ok two_models;
     web := fun _ => Loaded false false [];
     disk_fault := fun i => if (i =? 0)%nat then WriteFails 12 else Written |}.



(** The catalog in memory after the turn of a model. *)
Definition catalog_after_turn (w : world) (i : nat) (model catalog : pyobj)
  : pyobj :=
  match examine w i model with
  | Ok (new_providers, true) =>
      with_entry catalog i (set_providers model new_providers)
  | _ => catalog
  end.

(** The file after the turn of a model. *)
Definition file_after_turn (w : world) (i : nat) (model catalog : pyobj)
    (f : file_state) : file_state :=
  match examine w i model with
  | Ok (new_providers, true) =>
      fst (commit f (with_entry catalog i (set_providers model new_providers))
             (disk_fault w i))
  | _ => f
  end.

(** The catalog keeps its models in a list. *)
Definition listed (catalog : pyobj) : Prop :=
  exists models, Py.getitem catalog (VStr "data") = Ok (VList models).


(** The file is as found, or holds the beginning (possibly all) of the
    text of a catalog that differs from [document] in [providers] only. *)
Definition file_framed (document : pyobj) (f : file_state) : Prop :=
  match f with
  | Original => True
  | Holds text =>
      exists written rest,
        frame written = frame document
        /\ Json.dumps written = (text ++ rest)%string
  end.

(** * Vocabulary of the further properties *)

(** ** Update driver *)

(** The model after its turn at position [i]. *)
Definition model_after_turn (w : world) (i : nat) (model : pyobj) : pyobj :=
  match examine w i model with
  | Ok (new_providers, true) => set_providers model new_providers
  | _ => model
  end.

(** The models after the loop over them from position [i] on, which stops
    at the first one without an [id]. *)
Fixpoint turned (w : world) (i : nat) (models : list pyobj) : list pyobj :=
  match models with
  | [] => []
  | model :: rest =>
      if has_id model then model_after_turn w i model :: turned w (S i) rest
      else models
  end.

(** The models whose page was asked for, in the order of the calls. *)
Fixpoint scraped (log : list event) : list pyobj :=
  match log with
  | [] => []
  | Scrape model_id :: rest => model_id :: scraped rest
  | _ :: rest => scraped rest
  end.


(** The turn of the model detects a change. *)
Definition detects_change (w : world) (i : nat) (model : pyobj) : bool :=
  match examine w i model with
  | Ok (_, true) => true
  | _ => false
  end.

(** No turn from position [i] on detects a change. *)
Fixpoint quiet_from (w : world) (i : nat) (models : list pyobj) : bool :=
  match models with
  | [] => true
  | model :: rest => negb (detects_change w i model) && quiet_from w (S i) rest
  end.



(** A stored [providers] that has no length: [None], a bool or a number. *)
Definition unsized (v : pyobj) : bool :=
  match v with
  | VNone | VBool _ | VInt _ | VFloat _ => true
  | _ => false
  end.

(** *** Example data *)

(** No page can be reached. *)
Definition world_offline : world :=
  {| api_key := Some "sk-or-v1-0000";
     models_json := Ok two_models;
     web := fun _ => Unreachable PlaywrightError;
     disk_fault := fun _ => Written |}.

(** A model stored with [providers] set to [null]. *)
Definition voided : pyobj :=
  VDict [ ("id", VStr "mistralai/mistral-7b"); ("providers", VNone) ].

Definition world_voided : world :=
  {| api_key := Some "sk-or-v1-0000";
     models_json := Ok (VDict [ ("data", VList [gpt4o; voided; sonnet]) ]);
     web := fun _ => Loaded false false [];
     disk_fault := fun _ => Written |}.

(** Every write succeeds and no page shows a Providers tab. *)
Definition world_plain : world :=
  {| api_key := Some "sk-or-v1-0000";
     models_json := Ok two_models;
     web := fun _ => Loaded false false [];
     disk_fault := fun _ => Written |}.

(** ** Change detector *)

(** The value a stored metrics dict gives for a key: [None] when it lacks
    the key. *)
Definition stored_metric (fields : list (string * pyobj)) (key : string)
  : pyobj :=
  match Py.lookup key fields with
  | Some v => v
  | None => VNone
  end.

(** A new record against the name and the metrics dict of a stored one. *)
Definition differs_from_stored (stored : pyobj * list (string * pyobj))
    (new : provider) : bool :=
  let (stored_name, fields) := stored in
  Py.py_ne (name new) stored_name
  || Py.py_ne (context_length (metrics new))
              (stored_metric fields "context_length")
  || Py.py_ne (max_output_tokens (metrics new))
              (stored_metric fields "max_output_tokens")
  || Py.py_ne (input_price_per_million (metrics new))
              (stored_metric fields "input_price_per_million")
  || Py.py_ne (output_price_per_million (metrics new))
              (stored_metric fields "output_price_per_million")
  || Py.py_ne (latency_seconds (metrics new))
              (stored_metric fields "latency_seconds")
  || Py.py_ne (throughput_tokens_per_second (metrics new))
              (stored_metric fields "throughput_tokens_per_second").

Fixpoint stored_differ (stored : list (pyobj * list (string * pyobj)))
    (new : snapshot) : bool :=
  match stored, new with
  | s :: stored', b :: new' =>
      differs_from_stored s b || stored_differ stored' new'
  | _, _ => false
  end.

(** [item] is a dict that holds the name and the metrics dict of
    [stored], among other keys or not, in any order. *)
Definition holds_record (item : pyobj) (stored : pyobj * list (string * pyobj))
  : Prop :=
  exists fields,
    item = VDict fields
    /\ Py.lookup "name" fields = Some (fst stored)
    /\ Py.lookup "metrics" fields = Some (VDict (snd stored)).

(** A record stored by an older layout: its keys in another order, one more
    key in the record and in the metrics, three metrics missing. *)
Definition old_record : pyobj :=
  VDict [ ("metrics",
           VDict [ ("uptime", VInt 99);
                   ("max_output_tokens", VNone);
                   ("context_length", VNone);
                   ("latency_seconds", VNone) ]);
          ("region", VStr "eu");
          ("name", VNone) ].

(** ** Snapshot builder *)

(** The rows that yield a record. *)
Definition kept (rows : list row) : list row :=
  filter (fun r => negb (row_skipped r)) rows.

(** The records of the rows, in their order. *)
Fixpoint records (rows : list row) : snapshot :=
  match rows with
  | [] => []
  | r :: rest =>
      match scrape_row r with
      | Some p => p :: records rest
      | None => records rest
      end
  end.

Fixpoint no_upper (s : string) : bool :=
  match s with
  | EmptyString => true
  | String c s' => negb (PyStr.between 65 90 c) && no_upper s'
  end.

(** A name as the builder writes it: [None], or a text without a space and
    without a capital letter A to Z. *)
Definition name_ok (v : pyobj) : bool :=
  match v with
  | VNone => true
  | VStr n => negb (PyStr.occurs " " n) && no_upper n
  | _ => false
  end.

Definition int_or_none (v : pyobj) : bool :=
  match v with
  | VNone | VInt _ => true
  | _ => false
  end.

Definition float_or_none (v : pyobj) : bool :=
  match v with
  | VNone | VFloat _ => true
  | _ => false
  end.

(** A record of the shape the catalog expects. *)
Definition well_formed (p : provider) : bool :=
  name_ok (name p)
  && int_or_none (context_length (metrics p))
  && int_or_none (max_output_tokens (metrics p))
  && float_or_none (input_price_per_million (metrics p))
  && float_or_none (output_price_per_million (metrics p))
  && float_or_none (latency_seconds (metrics p))
  && float_or_none (throughput_tokens_per_second (metrics p)).

(** A page with a row that is passed over between two rows that are
    read. *)
Definition mixed_rows : list row :=
  [ {| name_el := Some (Ok "Open AI");
       cells := Ok [Ok "128K"; Ok "4,096"; Ok "$2.50"; Ok "$10";
                    Ok "0.45s"; Ok "45.1t/s"] |};
    {| name_el := Some (Ok "Broken");
       cells := Ok [Ok "128K"; Ok "4K"] |};
    {| name_el := Some (Ok "Azure");
       cells := Ok [Ok "--"; Ok "4K"; Ok "$2.50"; Ok "n/a";
                    Ok "0.45s"; Ok "45.1t/s"; Ok "extra"] |} ].

(** ** Value normaliser *)

(** Every character of the text satisfies [p]. *)
Fixpoint all_chars (p : ascii -> bool) (s : string) : bool :=
  match s with
  | EmptyString => true
  | String c s' => p c && all_chars p s'
  end.

(** A text of white space only. *)
Definition all_space (s : string) : bool := all_chars PyStr.isspace s.




Definition tab : string := String (ascii_of_N 9) EmptyString.

(** A model that has never been given [providers], whose page shows rows
    that are all passed over. *)
Definition world_unreadable_rows : world :=
  {| api_key := Some "sk-or-v1-0000";
     models_json := Ok two_models;
     web := fun _ => Loaded true true skipped_rows;
     disk_fault := fun _ => Written |}.

(** The catalog keeps its models in a dict keyed by [id]. *)
Definition keyed_catalog : pyobj :=
  VDict [ ("data", VDict [ ("openai/gpt-4o", gpt4o) ]) ].

Definition world_keyed : world :=
  {| api_key := Some "sk-or-v1-0000";
     models_json := Ok keyed_catalog;
     web := fun _ => Loaded false false [];
     disk_fault := fun _ => Written |}.

(** Six cells that can be read. *)
Definition six_cells : list (result string) :=
  [Ok "128K"; Ok "4,096"; Ok "$2.50"; Ok "$10"; Ok "0.45s"; Ok "45.1t/s"].

(** A value that is no list and no dict. *)
Definition scalar (v : pyobj) : bool :=
  match v with
  | VList _ | VDict _ => false
  | _ => true
  end.

(** * Properties *)

(** ** Value normaliser *)

Lemma replace_from_step (old new : string) (c : ascii) (s : string) :
  PyStr.replace_from old new 0 (String c s)
  = if PyStr.startswith (String c s) old
    then (new ++ PyStr.replace_from old new (String.length old - 1) s)%string
    else String c (PyStr.replace_from old new 0 s).
Proof. reflexivity. Qed.

Lemma startswith_cons (a b : ascii) (s pat : string) :
  PyStr.startswith (String b s) (String a pat)
  = Ascii.eqb a b && PyStr.startswith s pat.
Proof. reflexivity. Qed.

Lemma replace_char_delete (c : ascii) (s : string) :
  PyStr.replace (String c EmptyString) EmptyString s = delete_char c s.
Proof.
  unfold PyStr.replace.
  induction s as [|d s IH]; [reflexivity|].
  rewrite replace_from_step, startswith_cons.
  cbn [delete_char PyStr.startswith String.length Nat.sub].
  rewrite andb_true_r.
  destruct (Ascii.eqb c d); cbn [append]; now rewrite IH.
Qed.

(** Scanning a text that does not hold the unit leaves it as it is, and a
    unit appended to it is the one occurrence found. *)
Lemma replace_tps_absent (body : string) :
  contains "t/s" body = false ->
  PyStr.replace_from "t/s" EmptyString 0 body = body
  /\ PyStr.replace_from "t/s" EmptyString 0 (body ++ "t/s") = body.
Proof.
  induction body as [|c body IH]; intros H.
  - split; reflexivity.
  - cbn [contains] in H. apply orb_false_elim in H as [Hp Hc].
    specialize (IH Hc) as [IH1 IH2].
    split.
    + rewrite replace_from_step, Hp. now rewrite IH1.
    + cbn [append]. rewrite replace_from_step.
      assert (Hq : PyStr.startswith (String c (body ++ "t/s")) "t/s" = false).
      { rewrite startswith_cons in *.
        destruct (Ascii.eqb "t" c); [|reflexivity].
        destruct body as [|c1 body]; [reflexivity|].
        cbn [append]. rewrite startswith_cons in *.
        destruct (Ascii.eqb "/" c1); [|reflexivity].
        destruct body as [|c2 body]; [reflexivity|].
        cbn [append]. rewrite startswith_cons in *.
        destruct (Ascii.eqb "s" c2); [|reflexivity].
        destruct body; discriminate Hp. }
      rewrite Hq. now rewrite IH2.
Qed.

(** C8. The normaliser on the listed inputs: ["1,234K"] as an integer is
    1234000; ["$0.50"] as a decimal is the double 0.5; ["2.3s"] as a latency
    and ["45.1t/s"] as a throughput are the doubles nearest to 2.3 and 45.1;
    an absent input gives an absent output for every kind; ["abc"] as an
    integer is absent, the [ValueError] of [int] being caught. *)
Theorem normaliser_listed_values :
  clean_and_convert_values (Some "1,234K") "int" = VInt 1234000
  /\ (exists f, clean_and_convert_values (Some "$0.50") "float" = VFloat f
                /\ is_double_of f 50 100 = true
                /\ Py.py_eq (VFloat f) (VFloat (S754_finite false 4503599627370496 (-53)))
                   = true)
  /\ (exists f, clean_and_convert_values (Some "2.3s") "latency" = VFloat f
                /\ is_double_of f 23 10 = true)
  /\ (exists f, clean_and_convert_values (Some "45.1t/s") "throughput" = VFloat f
                /\ is_double_of f 451 10 = true)
  /\ (forall data_type, clean_and_convert_values None data_type = VNone)
  /\ clean_and_convert_values (Some "abc") "int" = VNone.
Proof.
  split; [vm_compute; reflexivity|].
  split; [eexists; repeat split; vm_compute; reflexivity|].
  split; [eexists; repeat split; vm_compute; reflexivity|].
  split; [eexists; repeat split; vm_compute; reflexivity|].
  split; [reflexivity | vm_compute; reflexivity].
Qed.

Lemma delete_char_absent (c : ascii) (s : string) :
  PyStr.occurs c s = false -> delete_char c s = s.
Proof.
  induction s as [|d s IH]; [reflexivity|].
  cbn [PyStr.occurs delete_char]. intros H.
  apply orb_false_elim in H as [Hd Hs].
  rewrite Hd. now rewrite IH.
Qed.

Lemma delete_char_app (c : ascii) (s t : string) :
  delete_char c (s ++ t) = (delete_char c s ++ delete_char c t)%string.
Proof.
  induction s as [|d s IH]; [reflexivity|].
  cbn [append delete_char]. destruct (Ascii.eqb c d); cbn [append]; now rewrite IH.
Qed.

Lemma append_empty_r (s : string) : (s ++ EmptyString)%string = s.
Proof. induction s as [|c s IH]; [reflexivity|]. cbn [append]. now rewrite IH. Qed.

(** The leftmost occurrence of the unit is dropped wherever it stands, and
    the scan goes on behind it. *)
Lemma replace_tps_first (a b : string) :
  contains "t/s" (a ++ "t/") = false ->
  PyStr.replace_from "t/s" EmptyString 0 (a ++ "t/s" ++ b)
  = (a ++ PyStr.replace_from "t/s" EmptyString 0 b)%string.
Proof.
  induction a as [|c a IH]; intros H.
  - reflexivity.
  - cbn [append contains] in H. apply orb_false_elim in H as [Hp Hc].
    cbn [append]. rewrite replace_from_step.
    assert (Hq : PyStr.startswith
                   (String c (a ++ String "t" (String "/" (String "s" b)))) "t/s"
                 = false).
    { rewrite startswith_cons in *.
      destruct (Ascii.eqb "t" c); [|reflexivity].
      destruct a as [|c1 a]; [reflexivity|].
      cbn [append] in *. rewrite startswith_cons in *.
      destruct (Ascii.eqb "/" c1); [|reflexivity].
      destruct a as [|c2 a]; [reflexivity|].
      cbn [append] in *. rewrite startswith_cons in *.
      destruct (Ascii.eqb "s" c2); [|reflexivity].
      discriminate Hp. }
    rewrite Hq. f_equal. exact (IH Hc).
Qed.

(** C9, as the code has it.  A latency loses every ["s"] of its trimmed
    text, wherever it stands, and a throughput the occurrences of ["t/s"]
    met from the left; what is left is parsed as a decimal, and is absent when
    it does not parse.  Where the unit is only a trailing suffix, the text
    before it is what is parsed. *)
Theorem unit_removed_everywhere (raw : string) :
  clean_and_convert_values (Some raw) "latency"
  = parsed (delete_char "s" (PyStr.strip raw))
  /\ (forall body,
        PyStr.strip raw = (body ++ "s")%string ->
        PyStr.occurs "s" body = false ->
        clean_and_convert_values (Some raw) "latency" = parsed body)
  /\ (contains "t/s" (PyStr.strip raw) = false ->
      clean_and_convert_values (Some raw) "throughput"
      = parsed (PyStr.strip raw))
  /\ (forall body,
        PyStr.strip raw = (body ++ "t/s")%string ->
        contains "t/s" body = false ->
        clean_and_convert_values (Some raw) "throughput" = parsed body)
  /\ (forall a b,
        PyStr.strip raw = (a ++ "t/s" ++ b)%string ->
        contains "t/s" (a ++ "t/") = false ->
        clean_and_convert_values (Some raw) "throughput"
        = parsed (a ++ PyStr.replace "t/s" EmptyString b)).
Proof.
  assert (L : clean_and_convert_values (Some raw) "latency"
              = parsed (delete_char "s" (PyStr.strip raw))).
  { unfold clean_and_convert_values, parsed.
    change (String.eqb "latency" "str") with false.
    change (String.eqb "latency" "int") with false.
    change (String.eqb "latency" "float") with false.
    change (String.eqb "latency" "latency") with true.
    cbn [orb]. now rewrite replace_char_delete. }
  assert (T : clean_and_convert_values (Some raw) "throughput"
              = parsed (PyStr.replace_from "t/s" EmptyString 0 (PyStr.strip raw))).
  { reflexivity. }
  split; [exact L|].
  split.
  { intros body Hb Ho. rewrite L, Hb, delete_char_app.
    rewrite (delete_char_absent _ _ Ho). cbn [delete_char].
    change (Ascii.eqb "s" "s") with true. cbv iota.
    now rewrite append_empty_r. }
  split.
  { intros H. rewrite T. now rewrite (proj1 (replace_tps_absent _ H)). }
  split.
  { intros body Hb H. rewrite T, Hb.
    now rewrite (proj2 (replace_tps_absent _ H)). }
  intros a b Hab H. rewrite T, Hab. now rewrite (replace_tps_first a b H).
Qed.

(** The theorem at ["2.3s"], ["45.1t/s"] and ["1t/s2"]. *)
Lemma unit_removed_everywhere_witness :
  clean_and_convert_values (Some "2.3s") "latency" = parsed "2.3"
  /\ clean_and_convert_values (Some "45.1") "throughput" = parsed "45.1"
  /\ clean_and_convert_values (Some "45.1t/s") "throughput" = parsed "45.1"
  /\ clean_and_convert_values (Some "1t/s2") "throughput" = parsed "12".
Proof.
  destruct (unit_removed_everywhere "2.3s") as (_ & H1 & _).
  destruct (unit_removed_everywhere "45.1") as (_ & _ & H2 & _).
  destruct (unit_removed_everywhere "45.1t/s") as (_ & _ & _ & H3 & _).
  destruct (unit_removed_everywhere "1t/s2") as (_ & _ & _ & _ & H4).
  split; [apply (H1 "2.3"); reflexivity|].
  split; [apply H2; reflexivity|].
  split; [apply (H3 "45.1"); reflexivity|].
  apply (H4 "1" "2"); reflexivity.
Defined.

(** C9 as stated fails: a unit inside the text is removed as well, so
    ["1s2"] is the latency 12.0 and ["1t/s2"] the throughput 12.0, where the
    removal of a trailing suffix alone would leave texts that do not
    parse. *)
Lemma unit_removed_inside :
  clean_and_convert_values (Some "1s2") "latency" = VFloat twelve
  /\ latency_by_suffix "1s2" = VNone
  /\ clean_and_convert_values (Some "1t/s2") "throughput" = VFloat twelve
  /\ throughput_by_suffix "1t/s2" = VNone.
Proof. repeat split; vm_compute; reflexivity. Qed.

(** ** Change detector *)

Section ChangeDetector.

Lemma len_snapshot (s : snapshot) :
  Py.len (snapshot_obj s) = Ok (List.length s).
Proof. unfold snapshot_obj, Py.len. now rewrite length_map. Qed.

Lemma iter_snapshot (s : snapshot) :
  Py.iter (snapshot_obj s) = Ok (map provider_data s).
Proof. reflexivity. Qed.

(** Indexing the list of a snapshot at the position that follows [before]. *)
Lemma getitem_snapshot (before : snapshot) (a : provider) (after : snapshot) :
  Py.getitem (snapshot_obj (before ++ a :: after)%list)
             (VInt (Z.of_nat (List.length before)))
  = Ok (provider_data a).
Proof.
  unfold snapshot_obj, Py.getitem, Py.position, Py.as_number.
  rewrite length_map, length_app. cbn [List.length].
  replace (Z.of_nat (List.length before) <? 0) with false
    by (symmetry; apply Z.ltb_ge; lia).
  replace (0 <=? Z.of_nat (List.length before)) with true
    by (symmetry; apply Z.leb_le; lia).
  replace (Z.of_nat (List.length before)
             <? Z.of_nat (List.length before + S (List.length after))) with true
    by (symmetry; apply Z.ltb_lt; lia).
  cbn [andb bind]. rewrite Nat2Z.id, map_app. cbn [map].
  rewrite nth_error_app2 by (rewrite length_map; lia).
  rewrite length_map, Nat.sub_diag. reflexivity.
Qed.

(** The comparison of the six metrics of two records. *)
Lemma metrics_changed_records (a b : metric_set) :
  metrics_changed (metrics_dict b) (metrics_dict a)
    [ VStr "context_length"; VStr "max_output_tokens";
      VStr "input_price_per_million"; VStr "output_price_per_million";
      VStr "latency_seconds"; VStr "throughput_tokens_per_second" ]
  = Ok (metrics_differ a b).
Proof.
  unfold metrics_differ. destruct a, b. cbn.
  repeat match goal with
         | |- context [Py.py_ne ?x ?y] => destruct (Py.py_ne x y); cbn
         end; reflexivity.
Qed.

Lemma getitem_name (p : provider) :
  Py.getitem (provider_data p) (VStr "name") = Ok (name p).
Proof. reflexivity. Qed.

Lemma getitem_metrics (p : provider) :
  Py.getitem (provider_data p) (VStr "metrics") = Ok (metrics_dict (metrics p)).
Proof. reflexivity. Qed.

Lemma iter_metrics (m : metric_set) :
  Py.iter (metrics_dict m)
  = Ok [ VStr "context_length"; VStr "max_output_tokens";
         VStr "input_price_per_million"; VStr "output_price_per_million";
         VStr "latency_seconds"; VStr "throughput_tokens_per_second" ].
Proof. reflexivity. Qed.

(** The loop over the candidate, once the records before position
    [length before] have been found equal. *)
Lemma providers_changed_from_snapshots (new before existing : snapshot) :
  List.length existing = List.length new ->
  providers_changed_from (snapshot_obj (before ++ existing)%list)
    (List.length before) (map provider_data new)
  = Ok (differs_somewhere existing new).
Proof.
  revert before existing.
  induction new as [|b new IH]; intros before existing Hlen.
  - destruct existing; [reflexivity | discriminate].
  - destruct existing as [|a existing]; [discriminate|].
    cbn [map providers_changed_from].
    rewrite len_snapshot. cbn [bind].
    replace (List.length (before ++ a :: existing) <=? List.length before)%nat
      with false
      by (symmetry; apply Nat.leb_gt; rewrite length_app; cbn; lia).
    rewrite getitem_snapshot. cbn [bind].
    rewrite !getitem_name. cbn [bind].
    cbn [differs_somewhere]. unfold provider_differs.
    destruct (Py.py_ne (name b) (name a)); [reflexivity|].
    rewrite !getitem_metrics. cbn [bind].
    rewrite iter_metrics. cbn [bind].
    rewrite metrics_changed_records. cbn [bind orb].
    destruct (metrics_differ (metrics a) (metrics b)); [reflexivity|].
    specialize (IH (before ++ [a])%list existing).
    rewrite <- app_assoc, length_app in IH. cbn [List.length app] in IH.
    rewrite Nat.add_1_r in IH. apply IH. now injection Hlen.
Qed.

(** What the detector answers on two snapshots. *)
Lemma providers_changed_snapshots (existing new : snapshot) :
  providers_changed (snapshot_obj existing) (snapshot_obj new)
  = Ok (negb (List.length existing =? List.length new)%nat
        || differs_somewhere existing new).
Proof.
  unfold providers_changed. rewrite !len_snapshot. cbn [bind].
  destruct (Nat.eqb_spec (List.length existing) (List.length new)) as [E|_];
    [|reflexivity].
  cbn [negb orb]. rewrite iter_snapshot. cbn [bind].
  exact (providers_changed_from_snapshots new [] existing E).
Qed.

Lemma differs_somewhere_at (existing new : snapshot) (i : nat) (a b : provider) :
  nth_error existing i = Some a ->
  nth_error new i = Some b ->
  provider_differs a b = true ->
  differs_somewhere existing new = true.
Proof.
  revert existing new.
  induction i as [|i IH]; intros [|x existing] [|y new] Ha Hb Hd;
    try discriminate; cbn in Ha, Hb; cbn [differs_somewhere].
  - injection Ha as ->. injection Hb as ->. now rewrite Hd.
  - rewrite (IH _ _ Ha Hb Hd). apply orb_true_r.
Qed.



(** C5, where the code departs from it.  A row whose latency cell reads
    ["NaNs"] gives a snapshot with a NaN latency, and the detector answers
    [True] on that snapshot against itself: [nan != nan]. *)
Theorem nan_snapshot_differs_from_itself :
  scrape_providers nan_page = Ok [nan_provider]
  /\ providers_changed (snapshot_obj [nan_provider]) (snapshot_obj [nan_provider])
     = Ok true.
Proof. split; vm_compute; reflexivity. Qed.

(** C6. Snapshots of different lengths are reported as changed; so is the
    one-record snapshot of a model without providers against the empty
    snapshot. *)
Theorem length_change_detected :
  (forall existing new : snapshot,
      List.length existing <> List.length new ->
      providers_changed (snapshot_obj existing) (snapshot_obj new) = Ok true)
  /\ providers_changed (snapshot_obj []) (snapshot_obj [no_provider]) = Ok true.
Proof.
  split; [|reflexivity].
  intros existing new H. rewrite providers_changed_snapshots.
  apply Nat.eqb_neq in H. now rewrite H.
Qed.

Lemma length_change_detected_witness :
  providers_changed (snapshot_obj [openai; azure]) (snapshot_obj [openai])
  = Ok true.
Proof.
  apply (proj1 length_change_detected [openai; azure] [openai]).
  cbn. lia.
Defined.

(** C7. Two snapshots with the same records in another order, where some
    position holds records that differ, are reported as changed: the
    comparison goes position by position. *)
Theorem reordering_detected (existing new : snapshot) (i : nat)
    (a b : provider) :
  Permutation existing new ->
  nth_error existing i = Some a ->
  nth_error new i = Some b ->
  provider_differs a b = true ->
  providers_changed (snapshot_obj existing) (snapshot_obj new) = Ok true.
Proof.
  intros Hperm Ha Hb Hd.
  rewrite providers_changed_snapshots.
  rewrite (Permutation_length Hperm), Nat.eqb_refl.
  cbn [negb orb]. now rewrite (differs_somewhere_at existing new i a b).
Qed.

Lemma reordering_detected_witness :
  providers_changed (snapshot_obj [openai; azure]) (snapshot_obj [azure; openai])
  = Ok true.
Proof.
  apply (reordering_detected [openai; azure] [azure; openai] 0 openai azure).
  - apply perm_swap.
  - reflexivity.
  - reflexivity.
  - vm_compute. reflexivity.
Defined.

End ChangeDetector.

(** ** Snapshot builder *)

Section SnapshotBuilder.

Lemma inner_texts_raises (ms : list (result string)) :
  existsb raises ms = true -> exists e, inner_texts ms = Raise e.
Proof.
  induction ms as [|m ms IH]; [discriminate|].
  cbn [existsb inner_texts]. intros H.
  destruct m as [t|e]; cbn [raises orb bind] in *.
  - destruct (IH H) as [e He]. exists e. now rewrite He.
  - now exists e.
Qed.

Lemma scrape_row_skipped (r : row) :
  row_skipped r = true -> scrape_row r = None.
Proof.
  unfold row_skipped, scrape_row.
  destruct (name_el r) as [[text|e]|]; cbn [raises orb]; try reflexivity.
  destruct (cells r) as [ms|e]; [|reflexivity].
  intros H. destruct (List.length ms <? 6)%nat; [reflexivity|].
  cbn [orb] in H. destruct (inner_texts_raises ms H) as [e He].
  now rewrite He.
Qed.

(** Rows that are all passed over leave the accumulator as it was. *)
Lemma fold_skipped (rows : list row) (providers : snapshot) :
  forallb row_skipped rows = true ->
  fold_left
    (fun providers r =>
       match scrape_row r with
       | Some provider_data => (providers ++ [provider_data])%list
       | None => providers
       end) rows providers
  = providers.
Proof.
  revert providers.
  induction rows as [|r rows IH]; intros providers H; [reflexivity|].
  cbn [forallb] in H. apply andb_prop in H as [Hr Hrows].
  cbn [fold_left]. rewrite (scrape_row_skipped r Hr). now apply IH.
Qed.

(** C10. A page that shows provider rows, all of which are passed over,
    gives the empty snapshot, which is not the one-record snapshot of a
    model without providers. *)
Theorem all_rows_skipped_gives_empty (rows : list row) :
  rows <> [] ->
  forallb row_skipped rows = true ->
  scrape_providers (Loaded true true rows) = Ok []
  /\ ([] : snapshot) <> [no_provider].
Proof.
  intros Hne H. split; [|discriminate].
  unfold scrape_providers. cbn [negb].
  destruct rows as [|r rows]; [contradiction|].
  cbn [List.length Nat.eqb].
  now rewrite (fold_skipped (r :: rows) [] H).
Qed.

Lemma all_rows_skipped_gives_empty_witness :
  scrape_providers (Loaded true true skipped_rows) = Ok []
  /\ ([] : snapshot) <> [no_provider].
Proof.
  apply (all_rows_skipped_gives_empty skipped_rows).
  - discriminate.
  - reflexivity.
Defined.

End SnapshotBuilder.

(** ** Catalog store *)

Section CatalogStore.

Lemma substring_prefix (s : string) (n : nat) :
  exists rest, s = (substring 0 n s ++ rest)%string.
Proof.
  revert n. induction s as [|c s IH]; intros [|n]; cbn [substring append].
  - now exists EmptyString.
  - now exists EmptyString.
  - now exists (String c s).
  - destruct (IH n) as [rest Hrest]. exists rest. now rewrite <- Hrest.
Qed.






End CatalogStore.

(** ** Dicts and lists in place *)

Section InPlace.

Lemma lookup_setfield (k : string) (v : pyobj) (fields : list (string * pyobj)) :
  Py.lookup k (Py.setfield k v fields) = Some v.
Proof.
  induction fields as [|[k' v'] rest IH]; cbn [Py.setfield Py.lookup].
  - now rewrite String.eqb_refl.
  - destruct (String.eqb k k') eqn:E; cbn [Py.lookup]; rewrite E;
      [reflexivity | exact IH].
Qed.

Lemma lookup_setfield_other (k k' : string) (v : pyobj)
    (fields : list (string * pyobj)) :
  String.eqb k' k = false ->
  Py.lookup k' (Py.setfield k v fields) = Py.lookup k' fields.
Proof.
  intros Hne.
  induction fields as [|[k0 v0] rest IH]; cbn [Py.setfield Py.lookup].
  - now rewrite Hne.
  - destruct (String.eqb k k0) eqn:E; cbn [Py.lookup].
    + apply String.eqb_eq in E. subst k0. now rewrite Hne.
    + now rewrite IH.
Qed.

Lemma length_update {A : Type} (i : nat) (x : A) (l : list A) :
  List.length (update i x l) = List.length l.
Proof.
  revert i. induction l as [|y l IH]; intros [|i]; cbn; try reflexivity.
  now rewrite IH.
Qed.

Lemma nth_error_update_same {A : Type} (i : nat) (x : A) (l : list A) :
  (i < List.length l)%nat -> nth_error (update i x l) i = Some x.
Proof.
  revert i. induction l as [|y l IH]; intros [|i] H; cbn in *; try lia.
  - reflexivity.
  - apply IH. lia.
Qed.

Lemma nth_error_update_other {A : Type} (i j : nat) (x : A) (l : list A) :
  i <> j -> nth_error (update i x l) j = nth_error l j.
Proof.
  revert i j. induction l as [|y l IH]; intros [|i] [|j] H; cbn; try reflexivity.
  - contradiction.
  - apply IH. lia.
Qed.

(** A model that answers to a string key is a dict. *)
Lemma getitem_str_dict (model : pyobj) (k : string) (v : pyobj) :
  Py.getitem model (VStr k) = Ok v ->
  exists fields, model = VDict fields /\ Py.lookup k fields = Some v.
Proof.
  destruct model as [| | | | | |fields]; cbn; try discriminate.
  destruct (Py.lookup k fields) as [x|] eqn:E; [|discriminate].
  intros H. injection H as ->. now exists fields.
Qed.

Lemma listed_dict (catalog : pyobj) (models : list pyobj) :
  Py.getitem catalog (VStr "data") = Ok (VList models) ->
  exists top, catalog = VDict top /\ Py.lookup "data" top = Some (VList models).
Proof. apply getitem_str_dict. Qed.

Lemma entries_listed (catalog : pyobj) (models : list pyobj) :
  Py.getitem catalog (VStr "data") = Ok (VList models) ->
  entries catalog = models.
Proof. unfold entries. now intros ->. Qed.

(** Writing a model at a position of a listed catalog. *)
Lemma with_entry_listed (catalog : pyobj) (models : list pyobj) (i : nat)
    (model : pyobj) :
  Py.getitem catalog (VStr "data") = Ok (VList models) ->
  Py.getitem (with_entry catalog i model) (VStr "data")
  = Ok (VList (update i model models)).
Proof.
  intros H. destruct (listed_dict catalog models H) as (top & -> & Hdata).
  unfold with_entry. rewrite Hdata. cbn [Py.getitem].
  now rewrite lookup_setfield.
Qed.

(** Writing at a position of a catalog that is not listed changes
    nothing. *)
Lemma with_entry_unlisted (catalog : pyobj) (i : nat) (model : pyobj) :
  ~ listed catalog -> with_entry catalog i model = catalog.
Proof.
  intros H. unfold with_entry.
  destruct catalog as [| | | | | |top]; try reflexivity.
  destruct (Py.lookup "data" top) as [[| | | | |models|]|] eqn:E; try reflexivity.
  exfalso. apply H. exists models. cbn [Py.getitem]. now rewrite E.
Qed.

Lemma entries_unlisted (catalog : pyobj) : ~ listed catalog -> entries catalog = [].
Proof.
  intros H. unfold entries.
  destruct (Py.getitem catalog (VStr "data")) as [[| | | | |models|]|] eqn:E;
    try reflexivity.
  exfalso. apply H. now exists models.
Qed.

Lemma set_providers_get (model model_id new_providers : pyobj) :
  Py.getitem model (VStr "id") = Ok model_id ->
  Py.getitem (set_providers model new_providers) (VStr "providers")
  = Ok new_providers
  /\ Py.getitem (set_providers model new_providers) (VStr "id") = Ok model_id.
Proof.
  intros H. destruct (getitem_str_dict model "id" model_id H) as (fields & -> & Hid).
  cbn [set_providers Py.getitem]. rewrite lookup_setfield.
  rewrite lookup_setfield_other by reflexivity. now rewrite Hid.
Qed.

Lemma without_set_providers (model new_providers : pyobj) :
  without_providers (set_providers model new_providers) = without_providers model.
Proof.
  destruct model as [| | | | | |fields]; try reflexivity.
  cbn [set_providers without_providers]. f_equal.
  induction fields as [|[k v] rest IH]; [reflexivity|].
  cbn [Py.setfield].
  destruct (String.eqb "providers" k) eqn:E.
  - cbn [filter fst]. apply String.eqb_eq in E. subst k. reflexivity.
  - cbn [filter fst]. now rewrite IH.
Qed.

Lemma map_update {A B : Type} (f : A -> B) (i : nat) (x : A) (l : list A) :
  (forall y, nth_error l i = Some y -> f y = f x) ->
  map f (update i x l) = map f l.
Proof.
  revert i. induction l as [|y l IH]; intros [|i] H; cbn; try reflexivity.
  - now rewrite (H y eq_refl).
  - rewrite IH; [reflexivity | exact H].
Qed.

(** The models of a catalog after a write at a position. *)
Lemma entries_with_entry (catalog : pyobj) (i : nat) (model : pyobj) :
  entries (with_entry catalog i model) = update i model (entries catalog).
Proof.
  destruct (Py.getitem catalog (VStr "data")) as [[| | | | |models|]|e] eqn:E.
  6: { rewrite (entries_listed _ _ (with_entry_listed catalog models i model E)).
       now rewrite (entries_listed _ _ E). }
  all: assert (U : ~ listed catalog) by (intros [models H]; congruence);
       rewrite (with_entry_unlisted catalog i model U);
       rewrite (entries_unlisted catalog U); now destruct i.
Qed.

Lemma frame_setfield_data (top : list (string * pyobj)) (models models' : list pyobj) :
  Py.lookup "data" top = Some (VList models) ->
  map without_providers models' = map without_providers models ->
  frame (VDict (Py.setfield "data" (VList models') top)) = frame (VDict top).
Proof.
  intros Hdata Hmap. cbn [frame]. f_equal.
  induction top as [|[k v] rest IH]; [discriminate|].
  cbn [Py.lookup Py.setfield] in *.
  destruct (String.eqb "data" k) eqn:E.
  - apply String.eqb_eq in E. subst k. injection Hdata as ->.
    cbn [map fst snd]. change (String.eqb "data" "data") with true.
    cbv iota. now rewrite Hmap.
  - cbn [map]. now rewrite (IH Hdata).
Qed.

(** A write that keeps every field but [providers] of the model it
    replaces keeps the frame of the catalog. *)
Lemma frame_with_entry (catalog : pyobj) (i : nat) (model : pyobj) :
  (forall e, nth_error (entries catalog) i = Some e ->
             without_providers e = without_providers model) ->
  frame (with_entry catalog i model) = frame catalog.
Proof.
  intros H.
  destruct (Py.getitem catalog (VStr "data")) as [[| | | | |models|]|e] eqn:E.
  6: { destruct (listed_dict catalog models E) as (top & -> & Hdata).
       rewrite (entries_listed _ _ E) in H.
       unfold with_entry. rewrite Hdata.
       apply (frame_setfield_data top models _ Hdata).
       now apply map_update. }
  all: assert (U : ~ listed catalog) by (intros [models Hm]; congruence);
       now rewrite (with_entry_unlisted catalog i model U).
Qed.

Lemma lookup_frame (top : list (string * pyobj)) :
  Py.lookup "data"
    (map (fun kv =>
            if String.eqb (fst kv) "data" then
              (fst kv,
               match snd kv with
               | VList models => VList (map without_providers models)
               | v => v
               end)
            else kv) top)
  = match Py.lookup "data" top with
    | Some (VList models) => Some (VList (map without_providers models))
    | other => other
    end.
Proof.
  induction top as [|[k v] rest IH]; [reflexivity|].
  cbn [map fst snd Py.lookup]. rewrite (String.eqb_sym k "data").
  destruct (String.eqb "data" k) eqn:E; cbn [Py.lookup fst]; rewrite E.
  - now destruct v.
  - exact IH.
Qed.

(** The models of the frame are the models without their [providers]. *)
Lemma entries_frame (catalog : pyobj) :
  entries (frame catalog) = map without_providers (entries catalog).
Proof.
  destruct catalog as [| | | | | |top]; try reflexivity.
  unfold entries. cbn [frame Py.getitem]. rewrite lookup_frame.
  destruct (Py.lookup "data" top) as [[| | | | |models|]|]; reflexivity.
Qed.

End InPlace.

(** ** Update driver *)

Section Driver.

Variable w : world.

Lemma has_id_ok (model : pyobj) :
  has_id model = true <-> exists model_id, Py.getitem model (VStr "id") = Ok model_id.
Proof.
  unfold has_id. destruct (Py.getitem model (VStr "id")) as [x|e]; cbn.
  - split; [now exists x | reflexivity].
  - split; [discriminate | intros [x Hx]; discriminate].
Qed.

Lemma process_model_without_id (i : nat) (model : pyobj) (st : state) :
  has_id model = false -> exists e, process_model w i model st = Raise e.
Proof.
  unfold has_id, process_model.
  destruct (Py.getitem model (VStr "id")) as [x|e]; cbn; [discriminate|].
  now exists e.
Qed.

(** The turn of a model that carries an [id] ends normally, whatever the
    scrape, the comparison and the write do. *)
Lemma process_model_with_id (i : nat) (model : pyobj) (st : state) :
  has_id model = true ->
  exists st',
    process_model w i model st = Ok st'
    /\ output st' = (output st ++ report w i model)%list
    /\ models_data st' = catalog_after_turn w i model (models_data st)
    /\ file st' = file_after_turn w i model (models_data st) (file st).
Proof.
  intros H. apply has_id_ok in H as [model_id Hid].
  unfold process_model, report, catalog_after_turn, file_after_turn.
  rewrite Hid. cbn [bind].
  destruct (examine w i model) as [[new_providers [|]]|e].
  - destruct (disk_fault w i); cbn [commit fst emit output models_data file];
      eexists; (split; [reflexivity|]);
      cbn [emit output models_data file]; rewrite <- !app_assoc;
      repeat split; reflexivity.
  - eexists. split; [reflexivity|].
    cbn [emit output models_data file]. rewrite <- !app_assoc.
    repeat split; reflexivity.
  - eexists. split; [reflexivity|].
    cbn [emit output models_data file]. rewrite <- !app_assoc.
    repeat split; reflexivity.
Qed.

(** The loop stops at the first model without an [id] and nowhere else. *)
Lemma for_each_model_exit (models : list pyobj) (i : nat) (st : state) :
  snd (for_each_model w models i st) = None <-> forallb has_id models = true.
Proof.
  revert i st. induction models as [|model rest IH]; intros i st.
  - cbn. tauto.
  - cbn [for_each_model forallb].
    destruct (has_id model) eqn:Hid.
    + destruct (process_model_with_id i model st Hid) as (st' & -> & _).
      cbn [andb]. apply IH.
    + destruct (process_model_without_id i model st Hid) as (e & ->).
      cbn. split; discriminate.
Qed.

(** What the loop prints: the reports of the models, one after the other. *)
Lemma for_each_model_output (models : list pyobj) (i : nat) (st : state) :
  output (fst (for_each_model w models i st))
  = (output st ++ reports w i models)%list.
Proof.
  revert i st. induction models as [|model rest IH]; intros i st.
  - cbn. now rewrite app_nil_r.
  - cbn [for_each_model reports].
    destruct (has_id model) eqn:Hid.
    + destruct (process_model_with_id i model st Hid) as (st' & -> & Hout & _).
      rewrite IH, Hout. now rewrite app_assoc.
    + destruct (process_model_without_id i model st Hid) as (e & ->).
      cbn. now rewrite app_nil_r.
Qed.

Lemma for_each_model_app (before after : list pyobj) (i : nat) (st : state) :
  forallb has_id before = true ->
  for_each_model w (before ++ after) i st
  = for_each_model w after (i + List.length before)
      (fst (for_each_model w before i st)).
Proof.
  revert i st. induction before as [|model rest IH]; intros i st H.
  - cbn. now rewrite Nat.add_0_r.
  - cbn [forallb] in H. apply andb_prop in H as [Hid Hrest].
    cbn [app for_each_model List.length].
    destruct (process_model_with_id i model st Hid) as (st' & -> & _).
    rewrite (IH (S i) st' Hrest). now rewrite Nat.add_succ_r.
Qed.


(** The run of the driver on a catalog that is loaded and iterated. *)
Lemma update_models_run (document : pyobj) (models : list pyobj) :
  models_json w = Ok document ->
  (data <- Py.getitem document (VStr "data") ;; Py.iter data) = Ok models ->
  let st := state_after w document models in
  catalog (update_models_with_providers w) = Some (models_data st)
  /\ disk (update_models_with_providers w) = file st
  /\ (forallb has_id models = true ->
      exit_code (update_models_with_providers w) = 0
      /\ printed (update_models_with_providers w) = reports w 0 models)
  /\ (forallb has_id models = false ->
      exit_code (update_models_with_providers w) = 1
      /\ exists e, printed (update_models_with_providers w)
                   = (reports w 0 models ++ [UpdateError e])%list).
Proof.
  intros Hload Hiter. cbv zeta. unfold update_models_with_providers, state_after.
  rewrite Hload, Hiter.
  pose proof (for_each_model_exit models 0
                {| models_data := document; file := Original; output := [] |})
    as Hexit.
  pose proof (for_each_model_output models 0
                {| models_data := document; file := Original; output := [] |})
    as Hout.
  destruct (for_each_model w models 0
              {| models_data := document; file := Original; output := [] |})
    as [st [e|]]; cbn [fst snd] in *; cbn [exit_code catalog disk printed].
  - split; [reflexivity|]. split; [reflexivity|]. split.
    + intros H. apply Hexit in H. discriminate.
    + intros _. split; [reflexivity|]. exists e. now rewrite Hout.
  - split; [reflexivity|]. split; [reflexivity|]. split.
    + intros _. split; [reflexivity | exact Hout].
    + intros H. destruct Hexit as [Hexit _]. rewrite (Hexit eq_refl) in H.
      discriminate.
Qed.




End Driver.


(** ** The catalog in memory and on disk *)

Section InMemory.

Variable w : world.

Lemma entries_after_turn (i : nat) (model catalog : pyobj) :
  entries (catalog_after_turn w i model catalog)
  = match examine w i model with
    | Ok (new_providers, true) =>
        update i (set_providers model new_providers) (entries catalog)
    | _ => entries catalog
    end.
Proof.
  unfold catalog_after_turn.
  destruct (examine w i model) as [[new_providers [|]]|e]; try reflexivity.
  apply entries_with_entry.
Qed.

Lemma turn_length (i : nat) (model catalog : pyobj) :
  List.length (entries (catalog_after_turn w i model catalog))
  = List.length (entries catalog).
Proof.
  rewrite entries_after_turn.
  destruct (examine w i model) as [[new_providers [|]]|e]; try reflexivity.
  apply length_update.
Qed.

Lemma turn_other (i j : nat) (model catalog : pyobj) :
  i <> j ->
  nth_error (entries (catalog_after_turn w i model catalog)) j
  = nth_error (entries catalog) j.
Proof.
  intros H. rewrite entries_after_turn.
  destruct (examine w i model) as [[new_providers [|]]|e]; try reflexivity.
  now apply nth_error_update_other.
Qed.

(** The loop from position [start] on keeps the number of models and the
    models before [start]. *)
Lemma for_each_model_entries (models : list pyobj) (start : nat) (st : state) :
  let st' := fst (for_each_model w models start st) in
  List.length (entries (models_data st')) = List.length (entries (models_data st))
  /\ forall j, (j < start)%nat ->
               nth_error (entries (models_data st')) j
               = nth_error (entries (models_data st)) j.
Proof.
  revert start st. induction models as [|model rest IH]; intros start st.
  - cbn. split; [reflexivity | intros; reflexivity].
  - cbn [for_each_model]. destruct (has_id model) eqn:Hid.
    + destruct (process_model_with_id w start model st Hid)
        as (st1 & -> & _ & Hcat & _).
      destruct (IH (S start) st1) as [Hlen Hkeep]. cbv zeta in *.
      rewrite Hlen, Hcat, turn_length. split; [reflexivity|].
      intros j Hj. rewrite (Hkeep j) by lia. rewrite Hcat.
      apply turn_other. lia.
    + destruct (process_model_without_id w start model st Hid) as (e & ->).
      cbn. split; [reflexivity | intros; reflexivity].
Qed.

(** A turn keeps the frame, in memory and in what it writes, when the
    model it handles is the one at its position. *)
Lemma turn_frame (document : pyobj) (i : nat) (model catalog : pyobj)
    (f : file_state) :
  frame catalog = frame document ->
  file_framed document f ->
  (forall e, nth_error (entries catalog) i = Some e ->
             without_providers e = without_providers model) ->
  frame (catalog_after_turn w i model catalog) = frame document
  /\ file_framed document (file_after_turn w i model catalog f).
Proof.
  intros Hframe Hfile Hentry.
  unfold catalog_after_turn, file_after_turn.
  destruct (examine w i model) as [[new_providers [|]]|e]; try (split; assumption).
  assert (Hnew : frame (with_entry catalog i (set_providers model new_providers))
                 = frame document).
  { rewrite frame_with_entry; [exact Hframe|].
    intros e He. rewrite without_set_providers. now apply Hentry. }
  split; [exact Hnew|].
  destruct (disk_fault w i) as [| |n]; cbn [commit fst file_framed].
  - exists (with_entry catalog i (set_providers model new_providers)), EmptyString.
    split; [exact Hnew | now rewrite append_empty_r].
  - exact Hfile.
  - destruct (substring_prefix
                (Json.dumps (with_entry catalog i (set_providers model new_providers)))
                n) as [rest Hrest].
    now exists (with_entry catalog i (set_providers model new_providers)), rest.
Qed.

(** The loop keeps the frame when it goes through the models of the
    catalog, each at its position. *)
Lemma for_each_model_frame (document : pyobj) (models : list pyobj)
    (start : nat) (st : state) :
  frame (models_data st) = frame document ->
  file_framed document (file st) ->
  (forall j model e,
      nth_error models j = Some model ->
      nth_error (entries (models_data st)) (start + j) = Some e ->
      without_providers e = without_providers model) ->
  let st' := fst (for_each_model w models start st) in
  frame (models_data st') = frame document /\ file_framed document (file st').
Proof.
  revert start st. induction models as [|model rest IH];
    intros start st Hframe Hfile Hmodels.
  - cbn. now split.
  - cbn [for_each_model]. destruct (has_id model) eqn:Hid.
    + destruct (process_model_with_id w start model st Hid)
        as (st1 & -> & _ & Hcat & Hf).
      destruct (turn_frame document start model (models_data st) (file st)
                  Hframe Hfile) as [Hframe1 Hfile1].
      { intros e He. apply (Hmodels 0%nat model e eq_refl).
        now rewrite Nat.add_0_r. }
      apply IH.
      * now rewrite Hcat.
      * now rewrite Hf.
      * intros j m e Hm He. rewrite Hcat in He.
        rewrite turn_other in He by lia.
        apply (Hmodels (S j) m e Hm). now rewrite Nat.add_succ_r.
    + destruct (process_model_without_id w start model st Hid) as (e & ->).
      cbn. now split.
Qed.

End InMemory.

(** What is iterated is the list of the models, or a catalog without such a
    list. *)
Lemma iterated_entries (document : pyobj) (models : list pyobj) :
  (data <- Py.getitem document (VStr "data") ;; Py.iter data) = Ok models ->
  entries document = models \/ entries document = [].
Proof.
  unfold entries.
  destruct (Py.getitem document (VStr "data")) as [[| | | | |l|]|e]; cbn;
    intros H; try (now right).
  left. now injection H.
Qed.

(** C4. Through a run the catalog keeps its frame: the fields of the
    document and their order, the models of [data] in number and order, and
    every field of every model but [providers], unknown ones included, with
    their order.  This holds of the catalog in memory at the end of the run
    and of every text the run leaves in the file. *)
Theorem only_providers_replaced (w : world) (document : pyobj) :
  models_json w = Ok document ->
  exists final,
    catalog (update_models_with_providers w) = Some final
    /\ frame final = frame document
    /\ map without_providers (entries final)
       = map without_providers (entries document)
    /\ file_framed document (disk (update_models_with_providers w)).
Proof.
  intros Hload.
  assert (K : exists final,
             catalog (update_models_with_providers w) = Some final
             /\ frame final = frame document
             /\ file_framed document (disk (update_models_with_providers w))).
  { destruct (data <- Py.getitem document (VStr "data") ;; Py.iter data)
      as [models|e] eqn:Hiter.
    - destruct (update_models_run w document models Hload Hiter)
        as (Hcat & Hdisk & _).
      exists (models_data (state_after w document models)).
      rewrite Hdisk. split; [exact Hcat|].
      apply (for_each_model_frame w document models 0
               {| models_data := document; file := Original; output := [] |});
        cbn [models_data file file_framed]; auto.
      intros j model e Hm He. cbn [Nat.add] in He.
      destruct (iterated_entries document models Hiter) as [E|E];
        rewrite E in He.
      + congruence.
      + destruct j; discriminate.
    - exists document. unfold update_models_with_providers.
      rewrite Hload, Hiter. cbn. auto. }
  destruct K as (final & Hcat & Hframe & Hfile).
  exists final. repeat split; try assumption.
  rewrite <- !entries_frame. now rewrite Hframe.
Qed.

Lemma only_providers_replaced_witness :
  exists final,
    catalog (update_models_with_providers world_disk_full) = Some final
    /\ frame final = frame two_models
    /\ map without_providers (entries final) = [gpt4o; sonnet].
Proof.
  destruct (only_providers_replaced world_disk_full two_models eq_refl)
    as (final & Hcat & Hframe & Hentries & _).
  exists final. repeat split; assumption.
Defined.

Lemma reports_app (w : world) (before rest : list pyobj) (start : nat) :
  forallb has_id before = true ->
  reports w start (before ++ rest)
  = (reports w start before ++ reports w (start + List.length before) rest)%list.
Proof.
  revert start. induction before as [|m before IH]; intros start H.
  - cbn. now rewrite Nat.add_0_r.
  - cbn [forallb] in H. apply andb_prop in H as [Hm Hb].
    cbn [app reports List.length]. rewrite Hm, (IH (S start) Hb).
    rewrite <- app_assoc. now rewrite Nat.add_succ_r.
Qed.

(** The state of the loop once the models of [before], the model [model]
    whose write fails, and some of the models after it have had their
    turn. *)
Lemma entry_after_failed_commit (w : world) (document : pyobj)
    (before later : list pyobj) (model new_providers : pyobj) (n : nat) :
  List.length (entries document) = n ->
  (List.length before < n)%nat ->
  forallb has_id before = true ->
  has_id model = true ->
  examine w (List.length before) model = Ok (new_providers, true) ->
  nth_error
    (entries (models_data (state_after w document (before ++ model :: later))))
    (List.length before)
  = Some (set_providers model new_providers).
Proof.
  intros Hn Hlt Hbefore Hid Hex. unfold state_after.
  rewrite (for_each_model_app w before (model :: later) 0 _ Hbefore).
  cbn [Nat.add for_each_model].
  set (st0 := {| models_data := document; file := Original; output := [] |}).
  set (sb := fst (for_each_model w before 0 st0)).
  destruct (process_model_with_id w (List.length before) model sb Hid)
    as (st1 & -> & _ & Hcat & _).
  destruct (for_each_model_entries w later (S (List.length before)) st1)
    as [_ Hkeep].
  cbv zeta in Hkeep. rewrite (Hkeep (List.length before)) by lia.
  rewrite Hcat, entries_after_turn, Hex.
  apply nth_error_update_same.
  destruct (for_each_model_entries w before 0 st0) as [Hlen _].
  cbv zeta in Hlen. fold sb in Hlen. rewrite Hlen. cbn [st0 models_data]. lia.
Qed.

(** C3. When the write made for a model fails, the failure is printed, the
    model keeps its new [providers] in memory at every later turn of the loop
    and at the end of the run, and the next model has its turn: the run ends
    as the models after it make it end. *)
Theorem failed_commit_survived (w : world) (document : pyobj)
    (before after : list pyobj) (model model_id new_providers : pyobj) :
  models_json w = Ok document ->
  Py.getitem document (VStr "data") = Ok (VList (before ++ model :: after)) ->
  forallb has_id before = true ->
  Py.getitem model (VStr "id") = Ok model_id ->
  examine w (List.length before) model = Ok (new_providers, true) ->
  disk_fault w (List.length before) <> Written ->
  let r := update_models_with_providers w in
  let i := List.length before in
  (exists rest,
      printed r
      = (reports w 0 before
           ++ [Processing model_id; Scrape model_id;
               SaveError model_id OSError; Slept] ++ rest)%list
      /\ forall next after' next_id,
           after = next :: after' ->
           Py.getitem next (VStr "id") = Ok next_id ->
           exists rest', rest = Processing next_id :: Scrape next_id :: rest')
  /\ (forall k,
        nth_error
          (entries (models_data
                      (state_after w document (before ++ model :: firstn k after))))
          i
        = Some (set_providers model new_providers))
  /\ (exists final,
        catalog r = Some final
        /\ nth_error (entries final) i = Some (set_providers model new_providers))
  /\ Py.getitem (set_providers model new_providers) (VStr "providers")
     = Ok new_providers
  /\ (exit_code r = 0 <-> forallb has_id after = true).
Proof.
  intros Hload Hdata Hbefore Hid Hex Hfault. cbv zeta.
  assert (Hm : has_id model = true) by (apply has_id_ok; now exists model_id).
  assert (Hiter : (data <- Py.getitem document (VStr "data") ;; Py.iter data)
                  = Ok (before ++ model :: after)%list)
    by now rewrite Hdata.
  assert (Hn : List.length (entries document)
               = List.length (before ++ model :: after))
    by now rewrite (entries_listed _ _ Hdata).
  assert (Hlt : (List.length before < List.length (before ++ model :: after))%nat)
    by (rewrite length_app; cbn; lia).
  assert (Hall : forallb has_id (before ++ model :: after)
                 = forallb has_id after)
    by (rewrite forallb_app; cbn [forallb]; now rewrite Hbefore, Hm).
  assert (Hreport : report w (List.length before) model
                    = [Processing model_id; Scrape model_id;
                       SaveError model_id OSError; Slept]).
  { unfold report. rewrite Hid, Hex.
    destruct (disk_fault w (List.length before)); [contradiction| |]; reflexivity. }
  assert (Hreports : reports w 0 (before ++ model :: after)
                     = (reports w 0 before
                          ++ [Processing model_id; Scrape model_id;
                              SaveError model_id OSError; Slept]
                          ++ reports w (S (List.length before)) after)%list).
  { rewrite (reports_app w before (model :: after) 0 Hbefore).
    cbn [Nat.add reports]. now rewrite Hm, Hreport. }
  destruct (update_models_run w document (before ++ model :: after) Hload Hiter)
    as (Hcat & _ & Hyes & Hno).
  rewrite Hall in Hyes, Hno.
  split; [|split; [|split; [|split]]].
  - assert (Hnext : forall tail next after' next_id,
               after = next :: after' ->
               Py.getitem next (VStr "id") = Ok next_id ->
               exists rest',
                 (reports w (S (List.length before)) after ++ tail)%list
                 = Processing next_id :: Scrape next_id :: rest').
    { intros tail next after' next_id -> Hnid. cbn [reports].
      replace (has_id next) with true
        by (symmetry; apply has_id_ok; now exists next_id).
      unfold report. rewrite Hnid. cbn [app]. eauto. }
    destruct (forallb has_id after).
    + destruct (Hyes eq_refl) as [_ Hp].
      exists (reports w (S (List.length before)) after).
      split; [now rewrite Hp, Hreports|].
      intros next after' next_id Ha Hnid.
      destruct (Hnext [] next after' next_id Ha Hnid) as [rest' Hr].
      exists rest'. now rewrite app_nil_r in Hr.
    + destruct (Hno eq_refl) as [_ [e Hp]].
      exists (reports w (S (List.length before)) after ++ [UpdateError e])%list.
      split.
      * rewrite Hp, Hreports. rewrite <- !app_assoc. reflexivity.
      * intros next after' next_id Ha Hnid.
        apply (Hnext [UpdateError e] next after' next_id Ha Hnid).
  - intros k.
    apply (entry_after_failed_commit w document before (firstn k after) model
             new_providers _ Hn Hlt Hbefore Hm Hex).
  - exists (models_data (state_after w document (before ++ model :: after))).
    split; [exact Hcat|].
    apply (entry_after_failed_commit w document before after model
             new_providers _ Hn Hlt Hbefore Hm Hex).
  - apply (set_providers_get model model_id new_providers Hid).
  - destruct (forallb has_id after).
    + destruct (Hyes eq_refl) as [He _]. now rewrite He.
    + destruct (Hno eq_refl) as [He _]. rewrite He. split; discriminate.
Qed.

(** The theorem on [world_disk_full]: the write made for the first model
    fails, the second model follows. *)
Lemma failed_commit_survived_witness :
  let r := update_models_with_providers world_disk_full in
  In (SaveError (VStr "openai/gpt-4o") OSError) (printed r)
  /\ In (Processing (VStr "anthropic/claude-3.5-sonnet")) (printed r)
  /\ exit_code r = 0
  /\ exists final,
       catalog r = Some final
       /\ nth_error (entries final) 0
          = Some (set_providers gpt4o (snapshot_obj [no_provider])).
Proof.
  assert (Hex : examine world_disk_full (List.length (@nil pyobj)) gpt4o
                = Ok (snapshot_obj [no_provider], true))
    by (vm_compute; reflexivity).
  assert (Hfault : disk_fault world_disk_full (List.length (@nil pyobj)) <> Written)
    by (cbn; discriminate).
  destruct (failed_commit_survived world_disk_full two_models [] [sonnet] gpt4o
              (VStr "openai/gpt-4o") (snapshot_obj [no_provider])
              eq_refl eq_refl eq_refl eq_refl Hex Hfault)
    as ((rest & Hprinted & Hnext) & _ & Hfinal & _ & Hexit).
  destruct (Hnext sonnet [] (VStr "anthropic/claude-3.5-sonnet") eq_refl eq_refl)
    as [rest' Hrest].
  cbv zeta. rewrite Hprinted, Hrest. cbn [reports app].
  split; [cbn; auto|]. split; [cbn; auto 6|].
  split; [apply Hexit; reflexivity | exact Hfinal].
Defined.



(** * Further properties *)

(** ** Update driver: the catalog after a run *)

Section AfterRun.

Variable w : world.

Lemma update_app {A : Type} (pre : list A) (x y : A) (rest : list A) :
  update (List.length pre) y (pre ++ x :: rest) = (pre ++ y :: rest)%list.
Proof.
  induction pre as [|p pre IH]; [reflexivity|].
  cbn [List.length app update]. now rewrite IH.
Qed.

Lemma entries_after_turn_at (model catalog : pyobj) (pre rest : list pyobj) :
  entries catalog = (pre ++ model :: rest)%list ->
  entries (catalog_after_turn w (List.length pre) model catalog)
  = (pre ++ model_after_turn w (List.length pre) model :: rest)%list.
Proof.
  intros H. rewrite entries_after_turn. unfold model_after_turn.
  destruct (examine w (List.length pre) model) as [[new_providers [|]]|e];
    try exact H.
  rewrite H. apply update_app.
Qed.

(** The loop changes the models it goes through, each in its own turn, and
    no other. *)
Lemma for_each_model_turned (models pre : list pyobj) (st : state) :
  entries (models_data st) = (pre ++ models)%list ->
  entries (models_data (fst (for_each_model w models (List.length pre) st)))
  = (pre ++ turned w (List.length pre) models)%list.
Proof.
  revert pre st. induction models as [|model rest IH]; intros pre st H.
  - exact H.
  - cbn [for_each_model turned]. destruct (has_id model) eqn:Hid.
    + destruct (process_model_with_id w (List.length pre) model st Hid)
        as (st1 & -> & _ & Hcat & _).
      specialize (IH (pre ++ [model_after_turn w (List.length pre) model])%list st1).
      rewrite length_app, Nat.add_1_r, <- app_assoc in IH. cbn [app] in IH.
      rewrite <- app_assoc in IH. cbn [app] in IH.
      apply IH. rewrite Hcat. now apply entries_after_turn_at.
    + destruct (process_model_without_id w (List.length pre) model st Hid)
        as (e & ->).
      exact H.
Qed.

End AfterRun.

Section Runs.

Variable w : world.

(** What a run prints begins with the reports of the models. *)
Lemma printed_reports (document : pyobj) (models : list pyobj) :
  models_json w = Ok document ->
  (data <- Py.getitem document (VStr "data") ;; Py.iter data) = Ok models ->
  exists tail,
    printed (update_models_with_providers w) = (reports w 0 models ++ tail)%list.
Proof.
  intros Hload Hiter.
  destruct (update_models_run w document models Hload Hiter)
    as (_ & _ & Hyes & Hno).
  destruct (forallb has_id models).
  - destruct (Hyes eq_refl) as [_ Hp]. exists []. now rewrite app_nil_r.
  - destruct (Hno eq_refl) as [_ [e Hp]]. now exists [UpdateError e].
Qed.

Lemma listed_iter (document : pyobj) (models : list pyobj) :
  Py.getitem document (VStr "data") = Ok (VList models) ->
  (data <- Py.getitem document (VStr "data") ;; Py.iter data) = Ok models.
Proof. now intros ->. Qed.

(** The catalog at the end of a run over a list of models. *)
Lemma final_entries (document : pyobj) (models : list pyobj) :
  models_json w = Ok document ->
  Py.getitem document (VStr "data") = Ok (VList models) ->
  exists final,
    catalog (update_models_with_providers w) = Some final
    /\ entries final = turned w 0 models.
Proof.
  intros Hload Hdata.
  destruct (update_models_run w document models Hload (listed_iter _ _ Hdata))
    as (Hcat & _).
  exists (models_data (state_after w document models)).
  split; [exact Hcat|].
  apply (for_each_model_turned w models []
           {| models_data := document; file := Original; output := [] |}).
  cbn [models_data app]. now apply entries_listed.
Qed.

Lemma turned_app (before rest : list pyobj) (start : nat) :
  forallb has_id before = true ->
  exists before',
    turned w start (before ++ rest)
    = (before' ++ turned w (start + List.length before) rest)%list
    /\ List.length before' = List.length before.
Proof.
  revert start. induction before as [|m before IH]; intros start H.
  - exists []. cbn. now rewrite Nat.add_0_r.
  - cbn [forallb] in H. apply andb_prop in H as [Hm Hb].
    destruct (IH (S start) Hb) as (before' & Heq & Hlen).
    exists (model_after_turn w start m :: before').
    cbn [app turned List.length]. rewrite Hm, Heq.
    rewrite Nat.add_succ_r. split; [reflexivity | now rewrite Hlen].
Qed.

(** The model at a position reached by the loop, at the end of the run. *)
Lemma final_entry (document : pyobj) (before after : list pyobj) (model : pyobj) :
  models_json w = Ok document ->
  Py.getitem document (VStr "data") = Ok (VList (before ++ model :: after)) ->
  forallb has_id before = true ->
  has_id model = true ->
  exists final,
    catalog (update_models_with_providers w) = Some final
    /\ nth_error (entries final) (List.length before)
       = Some (model_after_turn w (List.length before) model).
Proof.
  intros Hload Hdata Hbefore Hm.
  destruct (final_entries document _ Hload Hdata) as (final & Hcat & Hentries).
  exists final. split; [exact Hcat|]. rewrite Hentries.
  destruct (turned_app before (model :: after) 0 Hbefore) as (before' & -> & Hlen).
  rewrite nth_error_app2 by lia. rewrite Hlen, Nat.sub_diag.
  cbn [Nat.add turned]. now rewrite Hm.
Qed.

(** The report of a model reached by the loop is part of what is printed. *)
Lemma report_printed (document : pyobj) (before after : list pyobj)
    (model : pyobj) (ev : event) :
  models_json w = Ok document ->
  Py.getitem document (VStr "data") = Ok (VList (before ++ model :: after)) ->
  forallb has_id before = true ->
  has_id model = true ->
  In ev (report w (List.length before) model) ->
  In ev (printed (update_models_with_providers w)).
Proof.
  intros Hload Hdata Hbefore Hm Hin.
  destruct (printed_reports document _ Hload (listed_iter _ _ Hdata))
    as [tail ->].
  rewrite (reports_app w before (model :: after) 0 Hbefore).
  cbn [Nat.add reports]. rewrite Hm.
  apply in_or_app. left. apply in_or_app. right. apply in_or_app. now left.
Qed.

End Runs.

(** X1. At the end of a run over a catalog that lists its models, the models
    in memory are the ones loaded, each changed by its own turn and by no
    other: a model whose turn detected a change has its new [providers],
    every other model, reached or not, is as it was loaded. *)
Theorem final_catalog (w : world) (document : pyobj) (models : list pyobj) :
  models_json w = Ok document ->
  Py.getitem document (VStr "data") = Ok (VList models) ->
  exists final,
    catalog (update_models_with_providers w) = Some final
    /\ entries final = turned w 0 models
    /\ List.length (entries final) = List.length models.
Proof.
  intros Hload Hdata.
  destruct (final_entries w document models Hload Hdata) as (final & Hcat & He).
  exists final. split; [exact Hcat|]. split; [exact He|].
  destruct (update_models_run w document models Hload (listed_iter _ _ Hdata))
    as (Hcat' & _).
  rewrite Hcat in Hcat'. injection Hcat' as ->.
  destruct (for_each_model_entries w models 0
              {| models_data := document; file := Original; output := [] |})
    as [Hlen _].
  cbv zeta in Hlen. unfold state_after. rewrite Hlen. cbn [models_data].
  now rewrite (entries_listed _ _ Hdata).
Qed.

Lemma final_catalog_witness :
  exists final,
    catalog (update_models_with_providers world_disk_full) = Some final
    /\ entries final
       = [set_providers gpt4o (snapshot_obj [no_provider]);
          set_providers sonnet (snapshot_obj [no_provider])].
Proof.
  destruct (final_catalog world_disk_full two_models [gpt4o; sonnet]
              eq_refl eq_refl) as (final & Hcat & He & _).
  exists final. split; [exact Hcat|]. rewrite He. vm_compute. reflexivity.
Defined.

Section Quiet.

Variable w : world.

Lemma quiet_turn (i : nat) (model catalog : pyobj) (f : file_state) :
  detects_change w i model = false ->
  catalog_after_turn w i model catalog = catalog
  /\ file_after_turn w i model catalog f = f.
Proof.
  unfold detects_change, catalog_after_turn, file_after_turn.
  destruct (examine w i model) as [[new_providers [|]]|e];
    [discriminate | split; reflexivity | split; reflexivity].
Qed.

(** A loop none of whose turns detects a change leaves the catalog and the
    file as they are. *)
Lemma for_each_model_quiet (models : list pyobj) (start : nat) (st : state) :
  quiet_from w start models = true ->
  models_data (fst (for_each_model w models start st)) = models_data st
  /\ file (fst (for_each_model w models start st)) = file st.
Proof.
  revert start st. induction models as [|model rest IH]; intros start st H.
  - now split.
  - cbn [quiet_from] in H. apply andb_prop in H as [Hq Hrest].
    apply negb_true_iff in Hq.
    cbn [for_each_model]. destruct (has_id model) eqn:Hid.
    + destruct (process_model_with_id w start model st Hid)
        as (st1 & -> & _ & Hcat & Hf).
      destruct (quiet_turn start model (models_data st) (file st) Hq)
        as [Hc1 Hf1].
      destruct (IH (S start) st1 Hrest) as [Hc2 Hf2].
      rewrite Hc2, Hf2, Hcat, Hf, Hc1, Hf1. now split.
    + destruct (process_model_without_id w start model st Hid) as (e & ->).
      now split.
Qed.

(** With writes that all succeed, the file is as found while the catalog
    is as loaded, and holds the text of the catalog in memory from the
    first write on. *)
Lemma for_each_model_synced (document : pyobj) (models : list pyobj)
    (start : nat) (st : state) :
  (forall i, disk_fault w i = Written) ->
  (models_data st = document /\ file st = Original)
  \/ file st = Holds (Json.dumps (models_data st)) ->
  let st' := fst (for_each_model w models start st) in
  (models_data st' = document /\ file st' = Original)
  \/ file st' = Holds (Json.dumps (models_data st')).
Proof.
  intros Hdisk. revert start st.
  induction models as [|model rest IH]; intros start st H.
  - exact H.
  - cbn [for_each_model]. destruct (has_id model) eqn:Hid.
    + destruct (process_model_with_id w start model st Hid)
        as (st1 & -> & _ & Hcat & Hf).
      apply IH. rewrite Hcat, Hf.
      unfold catalog_after_turn, file_after_turn.
      destruct (examine w start model) as [[new_providers [|]]|e]; try exact H.
      right. now rewrite Hdisk.
    + destruct (process_model_without_id w start model st Hid) as (e & ->).
      exact H.
Qed.

End Quiet.

(** X2. A run none of whose turns detects a change, because the pages show
    what is stored or because they cannot be read, rewrites nothing: the
    catalog in memory is the one loaded and the file is as it was found. *)
Theorem nothing_detected_nothing_written (w : world) (document : pyobj)
    (models : list pyobj) :
  models_json w = Ok document ->
  (data <- Py.getitem document (VStr "data") ;; Py.iter data) = Ok models ->
  quiet_from w 0 models = true ->
  catalog (update_models_with_providers w) = Some document
  /\ disk (update_models_with_providers w) = Original.
Proof.
  intros Hload Hiter Hquiet.
  destruct (update_models_run w document models Hload Hiter)
    as (Hcat & Hdisk & _).
  destruct (for_each_model_quiet w models 0
              {| models_data := document; file := Original; output := [] |}
              Hquiet) as [Hc Hf].
  rewrite Hcat, Hdisk. unfold state_after. now rewrite Hc, Hf.
Qed.

Lemma nothing_detected_nothing_written_witness :
  catalog (update_models_with_providers world_offline) = Some two_models
  /\ disk (update_models_with_providers world_offline) = Original.
Proof.
  apply (nothing_detected_nothing_written world_offline two_models
           [gpt4o; sonnet]); reflexivity.
Defined.

(** X3. When no write fails, the file and the memory agree at the end of
    the run: either nothing was written and the catalog is the one loaded, or
    the file holds the whole text of the catalog in memory. *)
Theorem file_matches_memory (w : world) (document : pyobj) :
  (forall i, disk_fault w i = Written) ->
  models_json w = Ok document ->
  (catalog (update_models_with_providers w) = Some document
   /\ disk (update_models_with_providers w) = Original)
  \/ exists final,
       catalog (update_models_with_providers w) = Some final
       /\ disk (update_models_with_providers w) = Holds (Json.dumps final).
Proof.
  intros Hdisk Hload.
  destruct (data <- Py.getitem document (VStr "data") ;; Py.iter data)
    as [models|e] eqn:Hiter.
  - destruct (update_models_run w document models Hload Hiter)
      as (Hcat & Hd & _).
    destruct (for_each_model_synced w document models 0
                {| models_data := document; file := Original; output := [] |}
                Hdisk) as [[Hc Hf]|Hf].
    + left. now split.
    + left. rewrite Hcat, Hd. unfold state_after. now rewrite Hc, Hf.
    + right. exists (models_data (state_after w document models)).
      split; [exact Hcat|]. rewrite Hd. exact Hf.
  - left. unfold update_models_with_providers. rewrite Hload, Hiter.
    now split.
Qed.

Lemma file_matches_memory_witness :
  exists final,
    catalog (update_models_with_providers world_plain) = Some final
    /\ disk (update_models_with_providers world_plain) = Holds (Json.dumps final).
Proof.
  destruct (file_matches_memory world_plain two_models (fun _ => eq_refl) eq_refl)
    as [[Hcat _]|H].
  - vm_compute in Hcat. discriminate Hcat.
  - exact H.
Defined.

(** ** Update driver: what a run prints *)

Section Printed.

Variable w : world.




(** A turn whose examination raises prints its error and stops there. *)
Lemma report_raised (i : nat) (model model_id : pyobj) (e : exn) :
  Py.getitem model (VStr "id") = Ok model_id ->
  examine w i model = Raise e ->
  report w i model
  = [Processing model_id; Scrape model_id; ProcessingError model_id e].
Proof. intros Hid He. unfold report. now rewrite Hid, He. Qed.

(** A turn whose examination returns prints one line on its outcome and
    pauses. *)
Lemma report_returned (i : nat) (model model_id : pyobj) :
  Py.getitem model (VStr "id") = Ok model_id ->
  (forall e, examine w i model <> Raise e) ->
  exists line,
    report w i model = [Processing model_id; Scrape model_id; line; Slept].
Proof.
  intros Hid He. unfold report. rewrite Hid.
  destruct (examine w i model) as [[new_providers [|]]|e].
  - destruct (disk_fault w i); eexists; reflexivity.
  - eexists; reflexivity.
  - now contradiction (He e).
Qed.

End Printed.



(** X5. The pause between two models is made only when the turn of the
    first returns: after a turn that raised, the error line is followed at
    once by the next model; after any other turn, the pause comes between
    its outcome and the next model. *)
Theorem pause_only_after_returned_turn (w : world) (document : pyobj)
    (before after : list pyobj) (model next model_id next_id : pyobj) :
  models_json w = Ok document ->
  Py.getitem document (VStr "data")
  = Ok (VList (before ++ model :: next :: after)) ->
  forallb has_id before = true ->
  Py.getitem model (VStr "id") = Ok model_id ->
  Py.getitem next (VStr "id") = Ok next_id ->
  let r := update_models_with_providers w in
  let head := (reports w 0 before ++ [Processing model_id; Scrape model_id])%list in
  (forall e,
      examine w (List.length before) model = Raise e ->
      exists tail,
        printed r
        = (head ++ [ProcessingError model_id e; Processing next_id] ++ tail)%list)
  /\ ((forall e, examine w (List.length before) model <> Raise e) ->
      exists line tail,
        printed r = (head ++ [line; Slept; Processing next_id] ++ tail)%list).
Proof.
  intros Hload Hdata Hbefore Hid Hnid. cbv zeta.
  assert (Hm : has_id model = true) by (apply has_id_ok; now exists model_id).
  assert (Hn : has_id next = true) by (apply has_id_ok; now exists next_id).
  destruct (printed_reports w document _ Hload (listed_iter _ _ Hdata))
    as [tail0 Hp].
  rewrite (reports_app w before (model :: next :: after) 0 Hbefore) in Hp.
  cbn [Nat.add reports] in Hp. rewrite Hm, Hn in Hp.
  assert (Hnext : exists rest,
             report w (S (List.length before)) next = Processing next_id :: rest).
  { unfold report. rewrite Hnid. cbn [app]. eauto. }
  destruct Hnext as [rest Hnext]. rewrite Hnext in Hp.
  split.
  - intros e He. rewrite (report_raised w _ model model_id e Hid He) in Hp.
    eexists. rewrite Hp. rewrite <- !app_assoc. cbn [app]. reflexivity.
  - intros He.
    destruct (report_returned w _ model model_id Hid He) as [line Hr].
    rewrite Hr in Hp. exists line. eexists. rewrite Hp.
    rewrite <- !app_assoc. cbn [app]. reflexivity.
Qed.

Lemma pause_only_after_returned_turn_witness :
  (exists tail,
      printed (update_models_with_providers world_offline)
      = [Processing (VStr "openai/gpt-4o"); Scrape (VStr "openai/gpt-4o");
         ProcessingError (VStr "openai/gpt-4o") PlaywrightError;
         Processing (VStr "anthropic/claude-3.5-sonnet")] ++ tail)%list
  /\ (exists line tail,
        printed (update_models_with_providers world_plain)
        = [Processing (VStr "openai/gpt-4o"); Scrape (VStr "openai/gpt-4o");
           line; Slept; Processing (VStr "anthropic/claude-3.5-sonnet")] ++ tail)%list.
Proof.
  split.
  - destruct (pause_only_after_returned_turn world_offline two_models [] []
                gpt4o sonnet (VStr "openai/gpt-4o")
                (VStr "anthropic/claude-3.5-sonnet")
                eq_refl eq_refl eq_refl eq_refl eq_refl) as [H _].
    exact (H PlaywrightError eq_refl).
  - destruct (pause_only_after_returned_turn world_plain two_models [] []
                gpt4o sonnet (VStr "openai/gpt-4o")
                (VStr "anthropic/claude-3.5-sonnet")
                eq_refl eq_refl eq_refl eq_refl eq_refl) as [_ H].
    apply H. intros e He. vm_compute in He. discriminate He.
Defined.

(** ** Update driver: stored providers *)

Section Stored.

Variable w : world.

(** A stored [providers] without a length makes the comparison raise. *)
Lemma examine_unsized (i : nat) (model stored : pyobj) :
  Py.getitem model (VStr "providers") = Ok stored ->
  unsized stored = true ->
  exists e,
    examine w i model = Raise e
    /\ (forall s, scrape_providers (web w i) = Ok s -> e = TypeError).
Proof.
  intros Hp Hu.
  destruct (getitem_str_dict model "providers" stored Hp) as (fields & -> & Hl).
  unfold examine.
  destruct (scrape_providers (web w i)) as [s|e].
  - exists TypeError. split; [|reflexivity].
    cbn [bind Py.get]. rewrite Hl. cbn [bind].
    unfold providers_changed. now destruct stored.
  - exists e. split; [reflexivity | discriminate].
Qed.






End Stored.

(** X6. A model stored with a [providers] that has no length ([null], a
    bool or a number) is never repaired: whatever its page shows, the
    comparison raises, the error is printed ([TypeError] when the page could
    be scraped), and the model is at the end of the run as it was loaded. *)
Theorem unsized_providers_never_repaired (w : world) (document : pyobj)
    (before after : list pyobj) (model model_id stored : pyobj) :
  models_json w = Ok document ->
  Py.getitem document (VStr "data") = Ok (VList (before ++ model :: after)) ->
  forallb has_id before = true ->
  Py.getitem model (VStr "id") = Ok model_id ->
  Py.getitem model (VStr "providers") = Ok stored ->
  unsized stored = true ->
  let r := update_models_with_providers w in
  (exists final,
      catalog r = Some final
      /\ nth_error (entries final) (List.length before) = Some model)
  /\ (exists e, In (ProcessingError model_id e) (printed r))
  /\ (forall s,
        scrape_providers (web w (List.length before)) = Ok s ->
        In (ProcessingError model_id TypeError) (printed r)).
Proof.
  intros Hload Hdata Hbefore Hid Hp Hu. cbv zeta.
  assert (Hm : has_id model = true) by (apply has_id_ok; now exists model_id).
  destruct (examine_unsized w (List.length before) model stored Hp Hu)
    as (e & Hex & He).
  assert (Hin : In (ProcessingError model_id e)
                   (printed (update_models_with_providers w))).
  { apply (report_printed w document before after model _ Hload Hdata Hbefore Hm).
    rewrite (report_raised w _ model model_id e Hid Hex). cbn. auto. }
  split; [|split].
  - destruct (final_entry w document before after model Hload Hdata Hbefore Hm)
      as (final & Hcat & Hnth).
    exists final. split; [exact Hcat|]. rewrite Hnth.
    unfold model_after_turn. now rewrite Hex.
  - now exists e.
  - intros s Hs. now rewrite <- (He s Hs).
Qed.

Lemma unsized_providers_never_repaired_witness :
  let r := update_models_with_providers world_voided in
  (exists final, catalog r = Some final /\ nth_error (entries final) 1 = Some voided)
  /\ In (ProcessingError (VStr "mistralai/mistral-7b") TypeError) (printed r).
Proof.
  destruct (unsized_providers_never_repaired world_voided
              (VDict [("data", VList [gpt4o; voided; sonnet])])
              [gpt4o] [sonnet] voided (VStr "mistralai/mistral-7b") VNone
              eq_refl eq_refl eq_refl eq_refl eq_refl eq_refl)
    as (Hfinal & _ & Herr).
  split; [exact Hfinal|].
  apply (Herr [no_provider]). reflexivity.
Defined.




(** ** Change detector on what is stored *)

Section Detector.


Lemma getitem_list_at (before : list pyobj) (x : pyobj) (after : list pyobj) :
  Py.getitem (VList (before ++ x :: after)) (VInt (Z.of_nat (List.length before)))
  = Ok x.
Proof.
  unfold Py.getitem, Py.position, Py.as_number.
  rewrite length_app. cbn [List.length].
  replace (Z.of_nat (List.length before) <? 0) with false
    by (symmetry; apply Z.ltb_ge; lia).
  replace (0 <=? Z.of_nat (List.length before)) with true
    by (symmetry; apply Z.leb_le; lia).
  replace (Z.of_nat (List.length before)
             <? Z.of_nat (List.length before + S (List.length after))) with true
    by (symmetry; apply Z.ltb_lt; lia).
  cbn [andb bind]. rewrite Nat2Z.id.
  rewrite nth_error_app2 by lia. now rewrite Nat.sub_diag.
Qed.

Lemma get_stored (fields : list (string * pyobj)) (key : string) :
  Py.get (VDict fields) (VStr key) VNone = Ok (stored_metric fields key).
Proof.
  unfold Py.get, stored_metric. now destruct (Py.lookup key fields).
Qed.

(** The six metrics of a new record against a stored metrics dict. *)
Lemma metrics_changed_stored (fields : list (string * pyobj)) (b : provider)
    (stored_name : pyobj) :
  Py.py_ne (name b) stored_name = false ->
  metrics_changed (metrics_dict (metrics b)) (VDict fields)
    [ VStr "context_length"; VStr "max_output_tokens";
      VStr "input_price_per_million"; VStr "output_price_per_million";
      VStr "latency_seconds"; VStr "throughput_tokens_per_second" ]
  = Ok (differs_from_stored (stored_name, fields) b).
Proof.
  intros Hname. unfold differs_from_stored. rewrite Hname.
  destruct b as [n [m1 m2 m3 m4 m5 m6]].
  cbn [metrics name context_length max_output_tokens input_price_per_million
         output_price_per_million latency_seconds throughput_tokens_per_second
         orb metrics_changed].
  rewrite !get_stored.
  cbn [metrics_dict Py.getitem Py.lookup String.eqb Ascii.eqb Bool.eqb bind
         context_length max_output_tokens input_price_per_million
         output_price_per_million latency_seconds throughput_tokens_per_second].
  repeat match goal with
         | |- context [Py.py_ne ?x ?y] => destruct (Py.py_ne x y); cbn [orb]
         end; reflexivity.
Qed.

(** The loop over the candidate against stored records. *)
Lemma providers_changed_from_stored (new : snapshot)
    (before items : list pyobj) (stored : list (pyobj * list (string * pyobj))) :
  Forall2 holds_record items stored ->
  List.length items = List.length new ->
  providers_changed_from (VList (before ++ items)) (List.length before)
    (map provider_data new)
  = Ok (stored_differ stored new).
Proof.
  revert before items stored.
  induction new as [|b new IH]; intros before items stored Hrec Hlen.
  - destruct items; [|discriminate]. inversion Hrec. reflexivity.
  - destruct items as [|item items]; [discriminate|].
    inversion Hrec as [|? [stored_name fields] ? stored' Hitem Hrest]; subst.
    destruct Hitem as (record & -> & Hn & Hm). cbn [fst snd] in Hn, Hm.
    cbn [map providers_changed_from Py.len bind].
    replace (List.length (before ++ VDict record :: items) <=? List.length before)%nat
      with false
      by (symmetry; apply Nat.leb_gt; rewrite length_app; cbn; lia).
    rewrite getitem_list_at. cbn [bind].
    rewrite getitem_name. cbn [bind Py.getitem]. rewrite Hn. cbn [bind].
    cbn [stored_differ].
    destruct (Py.py_ne (name b) stored_name) eqn:Hname.
    + unfold differs_from_stored. now rewrite Hname.
    + rewrite getitem_metrics. cbn [bind]. rewrite Hm. cbn [bind].
      rewrite iter_metrics. cbn [bind].
      rewrite (metrics_changed_stored fields b stored_name Hname). cbn [bind].
      destruct (differs_from_stored (stored_name, fields) b); [reflexivity|].
      cbn [orb].
      specialize (IH (before ++ [VDict record])%list items stored' Hrest).
      rewrite <- app_assoc, length_app in IH. cbn [List.length app] in IH.
      rewrite Nat.add_1_r in IH. apply IH. now injection Hlen.
Qed.

End Detector.


(** X9. Against stored records the detector looks at the name and at the
    six metric keys of the new record only: the order of the keys of a stored
    record, the other keys it holds and the other keys of its metrics play no
    part, and a metric key that the stored metrics lack counts as [None]. *)
Theorem stored_records_read_by_key (items : list pyobj)
    (stored : list (pyobj * list (string * pyobj))) (new : snapshot) :
  Forall2 holds_record items stored ->
  List.length items = List.length new ->
  providers_changed (VList items) (snapshot_obj new)
  = Ok (stored_differ stored new).
Proof.
  intros Hrec Hlen. unfold providers_changed.
  cbn [Py.len bind]. rewrite len_snapshot. cbn [bind].
  rewrite Hlen, Nat.eqb_refl. cbn [negb]. rewrite iter_snapshot. cbn [bind].
  exact (providers_changed_from_stored new [] items stored Hrec Hlen).
Qed.

Lemma stored_records_read_by_key_witness :
  providers_changed (VList [old_record]) (snapshot_obj [no_provider]) = Ok false.
Proof.
  apply (stored_records_read_by_key [old_record]
           [(VNone, [ ("uptime", VInt 99); ("max_output_tokens", VNone);
                      ("context_length", VNone); ("latency_seconds", VNone) ])]
           [no_provider]).
  - constructor; [|constructor]. eexists. repeat split.
  - reflexivity.
Defined.

(** ** Snapshot builder: rows and records *)

Section Rows.

Lemma inner_texts_ok (ms : list (result string)) :
  existsb raises ms = false -> exists ts, inner_texts ms = Ok ts.
Proof.
  induction ms as [|m ms IH]; [now exists []|].
  cbn [existsb inner_texts]. intros H. apply orb_false_elim in H as [Hm Hms].
  destruct m as [t|e]; [|discriminate].
  destruct (IH Hms) as [ts Hts]. exists (t :: ts). cbn [bind]. now rewrite Hts.
Qed.

Lemma scrape_row_kept (r : row) :
  row_skipped r = false -> exists p, scrape_row r = Some p.
Proof.
  unfold row_skipped, scrape_row.
  destruct (name_el r) as [[text|e]|]; cbn [raises orb]; try discriminate.
  destruct (cells r) as [ms|e]; [|discriminate].
  intros H. apply orb_false_elim in H as [Hlen Hms].
  rewrite Hlen. destruct (inner_texts_ok ms Hms) as [ts ->]. eauto.
Qed.

Lemma fold_records (rows : list row) (providers : snapshot) :
  fold_left
    (fun providers r =>
       match scrape_row r with
       | Some provider_data => (providers ++ [provider_data])%list
       | None => providers
       end) rows providers
  = (providers ++ records rows)%list.
Proof.
  revert providers. induction rows as [|r rows IH]; intros providers.
  - cbn. now rewrite app_nil_r.
  - cbn [fold_left records]. rewrite IH.
    destruct (scrape_row r); [now rewrite <- app_assoc | reflexivity].
Qed.

Lemma records_kept (rows : list row) :
  map Some (records rows) = map scrape_row (kept rows).
Proof.
  induction rows as [|r rows IH]; [reflexivity|].
  cbn [records kept filter]. fold (kept rows).
  destruct (row_skipped r) eqn:Hs; cbn [negb].
  - now rewrite (scrape_row_skipped r Hs).
  - destruct (scrape_row_kept r Hs) as [p Hp]. rewrite Hp.
    cbn [map]. now rewrite IH, Hp.
Qed.

Lemma length_kept (rows : list row) :
  (List.length (kept rows) <= List.length rows)%nat.
Proof. apply filter_length_le. Qed.

End Rows.

(** X10. On a page that shows provider rows, the snapshot holds one record
    for each row that is not passed over, in the order of the page, and
    nothing else; no row makes the builder raise. *)
Theorem one_record_per_row (rows : list row) :
  rows <> [] ->
  exists s,
    scrape_providers (Loaded true true rows) = Ok s
    /\ map Some s = map scrape_row (kept rows)
    /\ List.length s = List.length (kept rows)
    /\ (List.length s <= List.length rows)%nat.
Proof.
  intros Hne. exists (records rows).
  assert (Hlen : List.length (records rows) = List.length (kept rows)).
  { rewrite <- (length_map Some), records_kept. apply length_map. }
  split; [|split; [apply records_kept | split; [exact Hlen|]]].
  - unfold scrape_providers. cbn [negb].
    destruct rows as [|r rows]; [contradiction|].
    cbn [List.length Nat.eqb]. now rewrite fold_records.
  - rewrite Hlen. apply length_kept.
Qed.

Lemma one_record_per_row_witness :
  exists s,
    scrape_providers (Loaded true true mixed_rows) = Ok s
    /\ List.length s = 2%nat.
Proof.
  destruct (one_record_per_row mixed_rows) as (s & Hs & _ & Hlen & _).
  - discriminate.
  - exists s. split; [exact Hs | exact Hlen].
Defined.

(** ** Snapshot builder: the shape of the records *)

Section Shape.

Lemma lower_char_not_upper (c : ascii) :
  PyStr.between 65 90 (PyStr.lower_char c) = false.
Proof.
  destruct c as [[|] [|] [|] [|] [|] [|] [|] [|]]; vm_compute; reflexivity.
Qed.

Lemma no_upper_lower (s : string) : no_upper (PyStr.lower s) = true.
Proof.
  induction s as [|c s IH]; [reflexivity|].
  cbn [PyStr.lower no_upper]. now rewrite lower_char_not_upper, IH.
Qed.

(** Spaces replaced by underscores: no space is left and no capital
    comes in. *)
Lemma underscored (s : string) :
  PyStr.occurs " " (PyStr.replace " " "_" s) = false
  /\ (no_upper s = true -> no_upper (PyStr.replace " " "_" s) = true).
Proof.
  unfold PyStr.replace.
  induction s as [|c s [IH1 IH2]]; [now split|].
  rewrite replace_from_step, startswith_cons.
  cbn [PyStr.startswith String.length Nat.sub]. rewrite andb_true_r.
  destruct (Ascii.eqb " " c) eqn:E.
  - cbn [append PyStr.occurs no_upper]. rewrite IH1. split; [reflexivity|].
    intros H. apply andb_prop in H as [_ H]. now rewrite (IH2 H).
  - cbn [PyStr.occurs no_upper]. rewrite E, IH1. split; [reflexivity|].
    intros H. apply andb_prop in H as [-> H]. now rewrite (IH2 H).
Qed.

Lemma clean_int (value : option string) :
  int_or_none (clean_and_convert_values value "int") = true.
Proof.
  destruct value as [value|]; [|reflexivity].
  unfold clean_and_convert_values.
  change (String.eqb "int" "str") with false.
  change (String.eqb "int" "int") with true.
  change (String.eqb "int" "float") with false.
  cbv iota. cbn [orb].
  now destruct (PyNum.py_int _).
Qed.

Lemma clean_float (value : option string) :
  float_or_none (clean_and_convert_values value "float") = true.
Proof.
  destruct value as [value|]; [|reflexivity].
  unfold clean_and_convert_values.
  change (String.eqb "float" "str") with false.
  change (String.eqb "float" "int") with false.
  change (String.eqb "float" "float") with true.
  cbv iota. cbn [orb].
  now destruct (PyNum.py_float _).
Qed.

Lemma clean_latency (value : option string) :
  float_or_none (clean_and_convert_values value "latency") = true.
Proof.
  destruct value as [value|]; [|reflexivity].
  unfold clean_and_convert_values.
  change (String.eqb "latency" "str") with false.
  change (String.eqb "latency" "int") with false.
  change (String.eqb "latency" "float") with false.
  change (String.eqb "latency" "latency") with true.
  cbv iota. cbn [orb].
  now destruct (PyNum.py_float _).
Qed.

Lemma clean_throughput (value : option string) :
  float_or_none (clean_and_convert_values value "throughput") = true.
Proof.
  destruct value as [value|]; [|reflexivity].
  unfold clean_and_convert_values.
  change (String.eqb "throughput" "str") with false.
  change (String.eqb "throughput" "int") with false.
  change (String.eqb "throughput" "float") with false.
  change (String.eqb "throughput" "latency") with false.
  change (String.eqb "throughput" "throughput") with true.
  cbv iota. cbn [orb].
  now destruct (PyNum.py_float _).
Qed.

Lemma scrape_row_well_formed (r : row) (p : provider) :
  scrape_row r = Some p -> well_formed p = true.
Proof.
  unfold scrape_row.
  destruct (name_el r) as [[text|e]|]; try discriminate.
  destruct (cells r) as [ms|e]; [|discriminate].
  destruct (List.length ms <? 6)%nat; [discriminate|].
  destruct (inner_texts ms) as [ts|e]; [|discriminate].
  intros H. injection H as <-.
  unfold well_formed. cbn [name metrics context_length max_output_tokens
    input_price_per_million output_price_per_million latency_seconds
    throughput_tokens_per_second name_ok].
  destruct (underscored (PyStr.lower text)) as [Hsp Hup].
  unfold PyStr.replace in Hsp, Hup.
  rewrite Hsp, (Hup (no_upper_lower text)).
  now rewrite !clean_int, !clean_float, clean_latency, clean_throughput.
Qed.

Lemma records_well_formed (rows : list row) :
  forallb well_formed (records rows) = true.
Proof.
  induction rows as [|r rows IH]; [reflexivity|].
  cbn [records]. destruct (scrape_row r) as [p|] eqn:E; [|exact IH].
  cbn [forallb]. now rewrite (scrape_row_well_formed r p E), IH.
Qed.

End Shape.

(** X11. Whatever the page shows, every record of a snapshot has the shape
    the catalog expects: its name is [None] or a text without a space and
    without a capital letter A to Z; its context length and maximum output
    are an integer or [None]; its two prices, its latency and its throughput
    are a float or [None].  No metric is ever stored as a text. *)
Theorem snapshot_records_well_formed (model_page : page) (s : snapshot) :
  scrape_providers model_page = Ok s ->
  forallb well_formed s = true.
Proof.
  destruct model_page as [e|tab_found section_visible rows]; [discriminate|].
  unfold scrape_providers.
  destruct (negb tab_found); [intros H; injection H as <-; reflexivity|].
  destruct (negb section_visible); [intros H; injection H as <-; reflexivity|].
  destruct (List.length rows =? 0)%nat;
    [intros H; injection H as <-; reflexivity|].
  rewrite fold_records. intros H. injection H as <-.
  apply records_well_formed.
Qed.

Lemma snapshot_records_well_formed_witness :
  exists s,
    scrape_providers (Loaded true true mixed_rows) = Ok s
    /\ forallb well_formed s = true.
Proof.
  eexists. split; [vm_compute; reflexivity|].
  apply (snapshot_records_well_formed (Loaded true true mixed_rows)).
  vm_compute. reflexivity.
Defined.

(** ** Value normaliser: white space *)

Section WhiteSpace.

Lemma lstrip_all_space (l : string) : all_space l = true -> PyStr.lstrip l = EmptyString.
Proof.
  induction l as [|c l IH]; [reflexivity|].
  cbn [all_space all_chars PyStr.lstrip]. intros H.
  apply andb_prop in H as [-> H]. now apply IH.
Qed.

Lemma lstrip_pad (l s : string) :
  all_space l = true -> PyStr.lstrip (l ++ s) = PyStr.lstrip s.
Proof.
  induction l as [|c l IH]; [reflexivity|].
  cbn [all_space all_chars append PyStr.lstrip]. intros H.
  apply andb_prop in H as [-> H]. now apply IH.
Qed.

Lemma rstrip_all_space (r : string) : all_space r = true -> PyStr.rstrip r = EmptyString.
Proof.
  induction r as [|c r IH]; [reflexivity|].
  cbn [all_space all_chars PyStr.rstrip]. intros H.
  apply andb_prop in H as [Hc H]. rewrite (IH H). now rewrite Hc.
Qed.

Lemma rstrip_pad (s r : string) :
  all_space r = true -> PyStr.rstrip (s ++ r) = PyStr.rstrip s.
Proof.
  intros H. induction s as [|c s IH].
  - now apply rstrip_all_space.
  - cbn [append PyStr.rstrip]. now rewrite IH.
Qed.

Lemma lstrip_app (s r : string) :
  PyStr.lstrip (s ++ r)
  = match PyStr.lstrip s with
    | EmptyString => PyStr.lstrip r
    | t => (t ++ r)%string
    end.
Proof.
  induction s as [|c s IH]; [reflexivity|].
  cbn [append PyStr.lstrip]. now destruct (PyStr.isspace c).
Qed.

(** White space around a text is lost in [strip]. *)
Lemma strip_pad (l s r : string) :
  all_space l = true -> all_space r = true ->
  PyStr.strip (l ++ s ++ r) = PyStr.strip s.
Proof.
  intros Hl Hr. unfold PyStr.strip.
  rewrite (lstrip_pad l (s ++ r) Hl), lstrip_app.
  destruct (PyStr.lstrip s) as [|c t] eqn:E.
  - now rewrite (lstrip_all_space r Hr).
  - now rewrite (rstrip_pad (String c t) r Hr).
Qed.

End WhiteSpace.

(** X12. White space around a raw text plays no part: for every kind, the
    normaliser gives the same value for the text with and without it. *)
Theorem surrounding_space_ignored (l raw r data_type : string) :
  all_space l = true ->
  all_space r = true ->
  clean_and_convert_values (Some (l ++ raw ++ r)) data_type
  = clean_and_convert_values (Some raw) data_type.
Proof.
  intros Hl Hr. unfold clean_and_convert_values.
  now rewrite (strip_pad l raw r Hl Hr).
Qed.

Lemma surrounding_space_ignored_witness :
  clean_and_convert_values (Some ("  " ++ "1,234K" ++ tab)) "int" = VInt 1234000.
Proof.
  rewrite (surrounding_space_ignored "  " "1,234K" tab "int");
    vm_compute; reflexivity.
Defined.

(** ** Value normaliser: integers *)

Section Integers.


















End Integers.


(** ** Update driver: first scrape and catalogs of another shape *)

Section FirstScrape.

Variable w : world.

(** The comparison of the empty list with a snapshot. *)
Lemma changed_against_nothing (s : snapshot) :
  providers_changed (VList []) (snapshot_obj s)
  = Ok (negb (List.length s =? 0)%nat).
Proof.
  change (VList []) with (snapshot_obj []).
  rewrite providers_changed_snapshots. cbn [List.length differs_somewhere].
  rewrite orb_false_r. now destruct s.
Qed.

Lemma examine_without_providers (i : nat) (model model_id : pyobj) (s : snapshot) :
  Py.getitem model (VStr "id") = Ok model_id ->
  Py.getitem model (VStr "providers") = Raise KeyError ->
  scrape_providers (web w i) = Ok s ->
  examine w i model = Ok (snapshot_obj s, negb (List.length s =? 0)%nat).
Proof.
  intros Hid Hp Hs.
  destruct (getitem_str_dict model "id" model_id Hid) as (fields & -> & _).
  unfold examine. rewrite Hs. cbn [bind Py.get].
  cbn [Py.getitem] in Hp.
  destruct (Py.lookup "providers" fields); [discriminate|].
  cbn [bind]. now rewrite changed_against_nothing.
Qed.

End FirstScrape.

(** X14. A model that has no [providers] yet gets the snapshot of its
    first successful scrape, unless that snapshot is empty: the empty
    snapshot that a page of unreadable rows gives is never stored, and the
    model stays without [providers]. *)
Theorem first_scrape_stored_unless_empty (w : world) (document : pyobj)
    (before after : list pyobj) (model model_id : pyobj) (s : snapshot) :
  models_json w = Ok document ->
  Py.getitem document (VStr "data") = Ok (VList (before ++ model :: after)) ->
  forallb has_id before = true ->
  Py.getitem model (VStr "id") = Ok model_id ->
  Py.getitem model (VStr "providers") = Raise KeyError ->
  scrape_providers (web w (List.length before)) = Ok s ->
  exists final,
    catalog (update_models_with_providers w) = Some final
    /\ nth_error (entries final) (List.length before)
       = Some (match s with
               | [] => model
               | _ => set_providers model (snapshot_obj s)
               end).
Proof.
  intros Hload Hdata Hbefore Hid Hp Hs.
  assert (Hm : has_id model = true) by (apply has_id_ok; now exists model_id).
  destruct (final_entry w document before after model Hload Hdata Hbefore Hm)
    as (final & Hcat & Hnth).
  exists final. split; [exact Hcat|]. rewrite Hnth. f_equal.
  unfold model_after_turn.
  rewrite (examine_without_providers w _ model model_id s Hid Hp Hs).
  now destruct s.
Qed.

Lemma first_scrape_stored_unless_empty_witness :
  (exists final,
      catalog (update_models_with_providers world_plain) = Some final
      /\ nth_error (entries final) 0
         = Some (set_providers gpt4o (snapshot_obj [no_provider])))
  /\ (exists final,
        catalog (update_models_with_providers world_unreadable_rows) = Some final
        /\ nth_error (entries final) 0 = Some gpt4o).
Proof.
  split.
  - apply (first_scrape_stored_unless_empty world_plain two_models [] [sonnet]
             gpt4o (VStr "openai/gpt-4o") [no_provider]); reflexivity.
  - apply (first_scrape_stored_unless_empty world_unreadable_rows two_models []
             [sonnet] gpt4o (VStr "openai/gpt-4o") []); reflexivity.
Defined.

(** X15. When [data] is not a list but a dict or a text, the loop goes
    through its keys or its characters, none of which is a model: no page is
    visited and nothing is written; the run ends with status 1 at the first of
    them, and with status 0 only when there is none. *)
Theorem data_not_a_list (w : world) (document data : pyobj) :
  models_json w = Ok document ->
  Py.getitem document (VStr "data") = Ok data ->
  (exists fields, data = VDict fields) \/ (exists text, data = VStr text) ->
  let r := update_models_with_providers w in
  scraped (printed r) = []
  /\ catalog r = Some document
  /\ disk r = Original
  /\ (exit_code r = 0 <-> Py.len data = Ok 0%nat).
Proof.
  intros Hload Hdata Hkind. cbv zeta.
  assert (Hiter : exists models,
             Py.iter data = Ok models
             /\ (models = [] <-> Py.len data = Ok 0%nat)
             /\ forall m rest, models = m :: rest -> has_id m = false).
  { destruct Hkind as [[fields ->]|[text ->]].
    - exists (map (fun kv => VStr (fst kv)) fields). split; [reflexivity|].
      split.
      + destruct fields; cbn; split; intros H; try reflexivity; discriminate.
      + intros m rest H. destruct fields as [|[k v] fields]; [discriminate|].
        injection H as <- _. reflexivity.
    - exists (Py.chars text). split; [reflexivity|]. split.
      + destruct text; cbn; split; intros H; try reflexivity; discriminate.
      + intros m rest H. destruct text as [|c text]; [discriminate|].
        injection H as <- _. reflexivity. }
  destruct Hiter as (models & Hit & Hempty & Hhead).
  unfold update_models_with_providers. rewrite Hload, Hdata. cbn [bind].
  rewrite Hit. destruct models as [|m rest].
  - cbn. repeat split; try reflexivity. intros _. now apply Hempty.
  - cbn [for_each_model].
    destruct (process_model_without_id w 0 m
                {| models_data := document; file := Original; output := [] |}
                (Hhead m rest eq_refl)) as (e & ->).
    cbn. repeat split; try reflexivity; try discriminate.
    intros H. apply Hempty in H. discriminate H.
Qed.

Lemma data_not_a_list_witness :
  exit_code (update_models_with_providers world_keyed) = 1
  /\ scraped (printed (update_models_with_providers world_keyed)) = [].
Proof.
  destruct (data_not_a_list world_keyed keyed_catalog
              (VDict [("openai/gpt-4o", gpt4o)]) eq_refl eq_refl)
    as (Hs & _ & _ & _).
  - left. eexists. reflexivity.
  - split; [reflexivity | exact Hs].
Defined.

(** ** Snapshot builder: rows with more than six cells *)

Section Cells.

Lemma inner_texts_app (ms extra : list (result string)) :
  inner_texts (ms ++ extra)%list
  = (ts <- inner_texts ms ;; us <- inner_texts extra ;; Ok (ts ++ us)%list).
Proof.
  induction ms as [|m ms IH]; cbn [app inner_texts bind].
  - now destruct (inner_texts extra).
  - destruct m as [t|e]; cbn [bind]; [|reflexivity].
    rewrite IH. destruct (inner_texts ms) as [ts|e]; cbn [bind]; [|reflexivity].
    now destruct (inner_texts extra).
Qed.

Lemma inner_texts_length (ms : list (result string)) (ts : list string) :
  inner_texts ms = Ok ts -> List.length ts = List.length ms.
Proof.
  revert ts. induction ms as [|m ms IH]; intros ts.
  - cbn. intros H. now injection H as <-.
  - cbn [inner_texts]. destruct m as [t|e]; cbn [bind]; [|discriminate].
    destruct (inner_texts ms) as [us|e]; cbn [bind]; [|discriminate].
    intros H. injection H as <-. cbn. now rewrite (IH us eq_refl).
Qed.

End Cells.

(** X16. Of a row with more than six cells the first six are recorded and
    the others ignored, provided every cell can be read: all the cells are
    read before the record is built, and a cell beyond the sixth that cannot
    be read makes the whole row passed over. *)
Theorem cells_beyond_the_sixth (n : option (result string))
    (ms extra : list (result string)) :
  List.length ms = 6%nat ->
  (existsb raises extra = false ->
   scrape_row {| name_el := n; cells := Ok (ms ++ extra)%list |}
   = scrape_row {| name_el := n; cells := Ok ms |})
  /\ (existsb raises extra = true ->
      scrape_row {| name_el := n; cells := Ok (ms ++ extra)%list |} = None).
Proof.
  intros Hlen. split; intros Hextra.
  - unfold scrape_row. cbn [name_el cells].
    destruct n as [[text|e]|]; try reflexivity.
    rewrite length_app, Hlen. cbn [Nat.add Nat.ltb Nat.leb].
    rewrite inner_texts_app.
    destruct (inner_texts ms) as [ts|e] eqn:Hts; cbn [bind]; [|reflexivity].
    destruct (inner_texts_ok extra Hextra) as [us ->]. cbn [bind].
    pose proof (inner_texts_length ms ts Hts) as Hl. rewrite Hlen in Hl.
    destruct ts as [|t0 [|t1 [|t2 [|t3 [|t4 [|t5 [|t6 ts]]]]]]];
      try discriminate Hl.
    reflexivity.
  - apply scrape_row_skipped. unfold row_skipped. cbn [name_el cells].
    destruct n as [[text|e]|]; try reflexivity.
    cbn [raises orb]. rewrite existsb_app, Hextra. now rewrite !orb_true_r.
Qed.

Lemma cells_beyond_the_sixth_witness :
  scrape_row {| name_el := Some (Ok "Azure");
                cells := Ok (six_cells ++ [Ok "99.9%"])%list |}
  = scrape_row {| name_el := Some (Ok "Azure"); cells := Ok six_cells |}
  /\ scrape_row {| name_el := Some (Ok "Azure");
                   cells := Ok (six_cells ++ [Raise PlaywrightError])%list |}
     = None.
Proof.
  destruct (cells_beyond_the_sixth (Some (Ok "Azure")) six_cells [Ok "99.9%"]
              eq_refl) as [H1 _].
  destruct (cells_beyond_the_sixth (Some (Ok "Azure")) six_cells
              [Raise PlaywrightError] eq_refl) as [_ H2].
  split; [apply H1 | apply H2]; reflexivity.
Defined.

(** ** Change detector: the two arguments *)

Section Symmetry.

Lemma SFeqb_sym (f g : PyNum.binary64) : SFeqb f g = SFeqb g f.
Proof.
  unfold SFeqb, SFcompare.
  destruct f as [s1|s1| |s1 m1 e1], g as [s2|s2| |s2 m2 e2]; try reflexivity;
    try (destruct s1; reflexivity); try (destruct s2; reflexivity);
    try (destruct s1, s2; reflexivity).
  pose proof (Pos.compare_cont_antisym m1 m2 Eq) as Hm. cbn [CompOpp] in Hm.
  destruct s1, s2; try reflexivity;
    rewrite (Z.compare_antisym e1 e2);
    destruct (e1 ?= e2); cbn [CompOpp]; try reflexivity;
    rewrite <- Hm; destruct (Pos.compare_cont Eq m1 m2); reflexivity.
Qed.

Lemma num_eq_sym (a b : Py.number) : Py.num_eq a b = Py.num_eq b a.
Proof.
  destruct a as [x|f], b as [y|g]; cbn [Py.num_eq]; try reflexivity.
  - apply Z.eqb_sym.
  - apply SFeqb_sym.
Qed.

Lemma py_eq_sym (a b : pyobj) :
  scalar a = true -> scalar b = true -> Py.py_eq a b = Py.py_eq b a.
Proof.
  destruct a, b; try discriminate; intros _ _; cbn [Py.py_eq Py.as_number];
    try reflexivity; try apply num_eq_sym.
  apply String.eqb_sym.
Qed.

Lemma well_formed_scalar (p : provider) :
  well_formed p = true ->
  scalar (name p) = true
  /\ scalar (context_length (metrics p)) = true
  /\ scalar (max_output_tokens (metrics p)) = true
  /\ scalar (input_price_per_million (metrics p)) = true
  /\ scalar (output_price_per_million (metrics p)) = true
  /\ scalar (latency_seconds (metrics p)) = true
  /\ scalar (throughput_tokens_per_second (metrics p)) = true.
Proof.
  unfold well_formed. intros H.
  repeat (apply andb_prop in H as [H ?]).
  repeat split;
    match goal with
    | |- scalar ?v = true => destruct v; try reflexivity; discriminate
    end.
Qed.

Lemma provider_differs_sym (a b : provider) :
  well_formed a = true -> well_formed b = true ->
  provider_differs a b = provider_differs b a.
Proof.
  intros Ha Hb.
  destruct (well_formed_scalar a Ha) as (A0 & A1 & A2 & A3 & A4 & A5 & A6).
  destruct (well_formed_scalar b Hb) as (B0 & B1 & B2 & B3 & B4 & B5 & B6).
  unfold provider_differs, metrics_differ, Py.py_ne.
  rewrite (py_eq_sym _ _ B0 A0), (py_eq_sym _ _ B1 A1), (py_eq_sym _ _ B2 A2),
    (py_eq_sym _ _ B3 A3), (py_eq_sym _ _ B4 A4), (py_eq_sym _ _ B5 A5),
    (py_eq_sym _ _ B6 A6).
  reflexivity.
Qed.

Lemma differs_somewhere_sym (s1 s2 : snapshot) :
  forallb well_formed s1 = true -> forallb well_formed s2 = true ->
  differs_somewhere s1 s2 = differs_somewhere s2 s1.
Proof.
  revert s2. induction s1 as [|a s1 IH]; intros [|b s2] H1 H2; try reflexivity.
  cbn [forallb] in H1, H2.
  apply andb_prop in H1 as [Ha H1]. apply andb_prop in H2 as [Hb H2].
  cbn [differs_somewhere].
  now rewrite (provider_differs_sym a b Ha Hb), (IH s2 H1 H2).
Qed.

End Symmetry.

(** X17. On snapshots as the builder makes them the detector gives the same
    answer whichever of the two is taken as the stored one. *)
Theorem detector_symmetric (s1 s2 : snapshot) :
  forallb well_formed s1 = true ->
  forallb well_formed s2 = true ->
  providers_changed (snapshot_obj s1) (snapshot_obj s2)
  = providers_changed (snapshot_obj s2) (snapshot_obj s1).
Proof.
  intros H1 H2. rewrite !providers_changed_snapshots.
  rewrite (differs_somewhere_sym s1 s2 H1 H2).
  now rewrite (Nat.eqb_sym (List.length s1) (List.length s2)).
Qed.

Lemma detector_symmetric_witness :
  providers_changed (snapshot_obj [openai; azure]) (snapshot_obj [nan_provider])
  = providers_changed (snapshot_obj [nan_provider]) (snapshot_obj [openai; azure]).
Proof.
  apply (detector_symmetric [openai; azure] [nan_provider]);
    vm_compute; reflexivity.
Defined.
